(** * The QuickJS / CPython bridge of [module.c]

    A shallow embedding of the extension module: the two host types
    [_quickjs.Object] and [_quickjs.Context], the converter
    [quickjs_to_python] and the call protocol [object_call].

    The JavaScript engine (quickjs.h) and the CPython runtime (Python.h) are
    outside the module.  The engine is an interface ([Engine]) whose answers
    the bridge cannot predict; every call the bridge makes to it is recorded,
    with its arguments and its answer, in the order of the C statements.
    The one call of PyMem_Free is recorded with them: it frees a buffer the
    module does not own.  The rest of the host's heap management (malloc and
    free of the argument array, tp_free, host reference counts) is not part
    of the model. *)

From Stdlib Require Import ZArith List String Ascii Bool Lia DecimalString.
Import ListNotations.
Open Scope Z_scope.

(** ** Pointers and machine integers *)

(** A C pointer is its address; [NULL] is address zero. *)
Definition ptr := Z.
Definition NULL : ptr := 0.

Definition is_null (p : ptr) : bool := p =? NULL.

(** Conversion of a C [long] to [int32_t], as the initialiser
    [.int32 = val] of JS_MKVAL performs it (two's complement wrap-around). *)
Definition int32_of (z : Z) : Z := (z + 2 ^ 31) mod 2 ^ 32 - 2 ^ 31.

(** A C [long] of the LP64 data model. *)
Definition LONG_MIN : Z := - 2 ^ 63.
Definition LONG_MAX : Z := 2 ^ 63 - 1.

(** ** Engine values (quickjs.h) *)

(** The tags [quickjs_to_python] names, as the enum of quickjs.h declares
    them; every other tag value of the engine is [JS_TAG_OTHER] with its
    integer. *)
Inductive JSTag : Type :=
| JS_TAG_INT
| JS_TAG_BOOL
| JS_TAG_NULL
| JS_TAG_UNDEFINED
| JS_TAG_UNINITIALIZED
| JS_TAG_EXCEPTION
| JS_TAG_FLOAT64
| JS_TAG_STRING
| JS_TAG_OBJECT
| JS_TAG_OTHER (n : Z).

(** [JSValue]: a tag and the union [u].  The union member is kept as one
    integer: the int32 of an integer or boolean, the bit pattern of the
    double of a float64, the address of a reference-counted value. *)
Record JSValue : Type := mkJSValue { u : Z; tag : JSTag }.

Definition JS_VALUE_GET_TAG (v : JSValue) : JSTag := tag v.
Definition JS_VALUE_GET_INT (v : JSValue) : Z := int32_of (u v).
Definition JS_VALUE_GET_BOOL (v : JSValue) : Z := int32_of (u v).
Definition JS_VALUE_GET_FLOAT64 (v : JSValue) : Z := u v.

Definition JS_MKVAL (t : JSTag) (val : Z) : JSValue :=
  {| u := int32_of val; tag := t |}.

Definition JS_NULL : JSValue := JS_MKVAL JS_TAG_NULL 0.

Inductive JSEvalType : Type := JS_EVAL_TYPE_GLOBAL | JS_EVAL_TYPE_MODULE.

(** ** Host values (Python.h) *)

(** [ObjectData]: the retained JS value and the context it lives in. *)
Record ObjectData : Type := mkObjectData { context : ptr; object : JSValue }.

(** [ContextData]: one runtime and one context.  [ctx] is the field
    [context] of the C struct (the name is taken by [ObjectData]). *)
Record ContextData : Type := mkContextData { runtime : ptr; ctx : ptr }.

(** The host objects the bridge meets.  A float is the bit pattern of its
    double; [PyOther] is an object of any other host type. *)
Inductive PyObject : Type :=
| PyLong (n : Z)
| PyBool (b : bool)
| PyFloat (d : Z)
| Py_None
| PyUnicode (s : string)
| PyObjectData (o : ObjectData)
| PyOther (tp_name : string).

(** The host's [bool] is a subtype of its [int]: the type flag that
    PyLong_Check tests is inherited. *)
Definition PyLong_Check (o : PyObject) : bool :=
  match o with
  | PyLong _ | PyBool _ => true
  | _ => false
  end.

Definition PyUnicode_Check (o : PyObject) : bool :=
  match o with
  | PyUnicode _ => true
  | _ => false
  end.

(** The UTF-8 buffer of a string object (applied only under
    [PyUnicode_Check]). *)
Definition PyUnicode_AsUTF8 (o : PyObject) : string :=
  match o with
  | PyUnicode s => s
  | _ => EmptyString
  end.

(** The exception types the module raises or lets the host raise.
    [JSException] is the module's own, created by PyInit__quickjs.
    UnicodeDecodeError is what the host raises when bytes are not UTF-8. *)
Inductive PyExc : Type :=
| JSException
| PyExc_ValueError
| PyExc_TypeError
| PyExc_OverflowError
| PyExc_UnicodeDecodeError.

(** *** C strings and UTF-8 *)

(** What a function that takes a [const char *] reads of a buffer: the
    bytes before the first NUL. *)
Fixpoint c_str (buffer : string) : string :=
  match buffer with
  | EmptyString => EmptyString
  | String a rest =>
      if Ascii.eqb a Ascii.zero then EmptyString else String a (c_str rest)
  end.

Definition byte_of (a : ascii) : Z := Z.of_N (N_of_ascii a).

Definition between (lo b hi : Z) : bool := (lo <=? b) && (b <=? hi).

(** Well-formed UTF-8, as the host's strict decoder accepts it: [pending]
    continuation bytes are still due, the next of them within [lo, hi] (the
    bound that excludes overlong forms, surrogates and code points beyond
    U+10FFFF). *)
Fixpoint utf8_run (s : string) (pending : nat) (lo hi : Z) : bool :=
  match s with
  | EmptyString => match pending with O => true | S _ => false end
  | String a rest =>
      let b := byte_of a in
      match pending with
      | S k => if between lo b hi then utf8_run rest k 128 191 else false
      | O =>
          if b <? 128 then utf8_run rest 0 128 191
          else if between 194 b 223 then utf8_run rest 1 128 191
          else if b =? 224 then utf8_run rest 2 160 191
          else if between 225 b 236 then utf8_run rest 2 128 191
          else if b =? 237 then utf8_run rest 2 128 159
          else if between 238 b 239 then utf8_run rest 2 128 191
          else if b =? 240 then utf8_run rest 3 144 191
          else if between 241 b 243 then utf8_run rest 3 128 191
          else if b =? 244 then utf8_run rest 3 128 143
          else false
      end
  end.

Definition utf8_valid (s : string) : bool := utf8_run s 0 128 191.
Arguments utf8_valid s : simpl never.

(** printf's %d. *)
Definition format_d (n : Z) : string := NilZero.string_of_int (Z.to_int n).

(** ** The engine interface and the record of calls *)

(** One entry per call of an engine function, with the answer last; and
    one entry for the host call PyMem_Free, with the text of the buffer it is
    given. *)
Inductive Event : Type :=
| EvNewRuntime (rt : ptr)
| EvNewContext (rt : ptr) (c : ptr)
| EvFreeContext (c : ptr)
| EvFreeRuntime (rt : ptr)
| EvEval (c : ptr) (input : string) (len : Z) (filename : string)
         (flags : JSEvalType) (ret : JSValue)
| EvCall (c : ptr) (func this : JSValue) (argc : Z) (argv : list JSValue)
         (ret : JSValue)
| EvNewString (c : ptr) (s : string) (ret : JSValue)
| EvFreeValue (c : ptr) (v : JSValue)
| EvGetException (c : ptr) (ret : JSValue)
| EvToString (c : ptr) (v : JSValue) (ret : JSValue)
| EvToCString (c : ptr) (v : JSValue) (ret : string)
| EvFreeCString (c : ptr) (s : string)
| EvPyMem_Free (buffer : string).

(** The engine as the bridge sees it: a state of its own and one transition
    per function of quickjs.h that module.c calls.  [eng_Call] is given
    [argc] and the array [argv] points to, as JS_Call is.  JS_NewRuntime and
    JS_NewContext answer with a pointer, NULL when they fail; JS_ToCString
    answers with the text of the C string, which the source passes on
    unchecked. *)
Class Engine (E : Type) : Type := {
  eng_NewRuntime : E -> ptr * E;
  eng_NewContext : ptr -> E -> ptr * E;
  eng_FreeContext : ptr -> E -> E;
  eng_FreeRuntime : ptr -> E -> E;
  eng_Eval : ptr -> string -> Z -> string -> JSEvalType -> E -> JSValue * E;
  eng_Call : ptr -> JSValue -> JSValue -> Z -> list JSValue -> E -> JSValue * E;
  eng_NewString : ptr -> string -> E -> JSValue * E;
  eng_FreeValue : ptr -> JSValue -> E -> E;
  eng_GetException : ptr -> E -> JSValue * E;
  eng_ToString : ptr -> JSValue -> E -> JSValue * E;
  eng_ToCString : ptr -> JSValue -> E -> string * E;
  eng_FreeCString : ptr -> string -> E -> E
}.

(** What a call of the module can change: the engine and the host's error
    indicator (the pending exception, type and message). *)
Record World (E : Type) : Type := mkWorld {
  engine : E;
  py_err : option (PyExc * string)
}.
Arguments mkWorld {E} _ _.
Arguments engine {E} _.
Arguments py_err {E} _.

(** The outcome of running a piece of the module: its C return value, the
    world it leaves and the calls it made (engine calls, and the host's
    PyMem_Free), oldest first. *)
Record Run (E A : Type) : Type := mkRun {
  result : A;
  after : World E;
  calls : list Event
}.
Arguments mkRun {E A} _ _ _.
Arguments result {E A} _.
Arguments after {E A} _.
Arguments calls {E A} _.

Definition M (E A : Type) : Type := World E -> Run E A.

Definition ret {E A} (a : A) : M E A := fun w => mkRun a w [].

Definition bind {E A B} (m : M E A) (f : A -> M E B) : M E B :=
  fun w =>
    let r1 := m w in
    let r2 := f (result r1) (after r1) in
    mkRun (result r2) (after r2) (calls r1 ++ calls r2).

Declare Scope bridge_scope.
Delimit Scope bridge_scope with bridge.
Notation "x <- m ;; k" := (bind m (fun x => k))
  (at level 61, m at next level, right associativity) : bridge_scope.
Notation "m ;; k" := (bind m (fun _ => k))
  (at level 61, right associativity) : bridge_scope.
Open Scope bridge_scope.

Section Bridge.

Context {E : Type} {eng : Engine E}.

(** One engine transition that answers with a value. *)
Definition ask {A} (step : E -> A * E) (ev : A -> Event) : M E A :=
  fun w =>
    let answer := step (engine w) in
    mkRun (fst answer) (mkWorld (snd answer) (py_err w)) [ev (fst answer)].

(** One engine transition without an answer. *)
Definition tell (step : E -> E) (ev : Event) : M E unit :=
  fun w => mkRun tt (mkWorld (step (engine w)) (py_err w)) [ev].

Definition JS_NewRuntime : M E ptr :=
  ask eng_NewRuntime EvNewRuntime.
Definition JS_NewContext (rt : ptr) : M E ptr :=
  ask (eng_NewContext rt) (EvNewContext rt).
Definition JS_FreeContext (c : ptr) : M E unit :=
  tell (eng_FreeContext c) (EvFreeContext c).
Definition JS_FreeRuntime (rt : ptr) : M E unit :=
  tell (eng_FreeRuntime rt) (EvFreeRuntime rt).
Definition JS_Eval (c : ptr) (input : string) (len : Z) (filename : string)
    (flags : JSEvalType) : M E JSValue :=
  ask (eng_Eval c input len filename flags) (EvEval c input len filename flags).
Definition JS_Call (c : ptr) (func this : JSValue) (argc : Z)
    (argv : list JSValue) : M E JSValue :=
  ask (eng_Call c func this argc argv) (EvCall c func this argc argv).
Definition JS_NewString (c : ptr) (s : string) : M E JSValue :=
  ask (eng_NewString c s) (EvNewString c s).
Definition JS_FreeValue (c : ptr) (v : JSValue) : M E unit :=
  tell (eng_FreeValue c v) (EvFreeValue c v).
Definition JS_GetException (c : ptr) : M E JSValue :=
  ask (eng_GetException c) (EvGetException c).
Definition JS_ToString (c : ptr) (v : JSValue) : M E JSValue :=
  ask (eng_ToString c v) (EvToString c v).
Definition JS_ToCString (c : ptr) (v : JSValue) : M E string :=
  ask (eng_ToCString c v) (EvToCString c v).
Definition JS_FreeCString (c : ptr) (s : string) : M E unit :=
  tell (eng_FreeCString c s) (EvFreeCString c s).

(** PyErr_Format: sets the error indicator (replacing a pending one). *)
Definition PyErr_Format (exc : PyExc) (msg : string) : M E unit :=
  fun w => mkRun tt (mkWorld (engine w) (Some (exc, msg))) [].

(** PyMem_Free.  The module calls it once, on a buffer that belongs to a
    str object and that PyMem_Malloc never handed out: the behaviour of the
    host heap is undefined from there on.  The call is recorded; what a
    record shows after it is what the C statements say next, not a promise
    about the process. *)
Definition PyMem_Free (buffer : string) : M E unit :=
  fun w => mkRun tt w [EvPyMem_Free buffer].

(** [Py_BuildValue("s", cstring)]: the str decoded from the C string, or
    NULL with UnicodeDecodeError pending when its bytes are not UTF-8 (the
    wording of the message is the host's).  No engine call. *)
Definition Py_BuildValue_s (cstring : string) : M E (option PyObject) :=
  fun w =>
    mkRun (if utf8_valid cstring then Some (PyUnicode cstring) else None)
          (mkWorld (engine w)
             (if utf8_valid cstring then py_err w
              else Some (PyExc_UnicodeDecodeError,
                         "'utf-8' codec can't decode bytes"%string)))
          [].

(** PyLong_AsLong: the value when it fits a C long; otherwise -1 with
    OverflowError pending.  On an object that is no int, -1 with TypeError
    pending. *)
Definition PyLong_AsLong (o : PyObject) : M E Z :=
  match o with
  | PyLong n =>
      if (LONG_MIN <=? n) && (n <=? LONG_MAX) then ret n
      else PyErr_Format PyExc_OverflowError
             "Python int too large to convert to C long" ;; ret (-1)
  | PyBool b => ret (if b then 1 else 0)
  | _ => PyErr_Format PyExc_TypeError "an integer is required" ;; ret (-1)
  end.

(** *** Object type *)

(** object_new.  [mem] is what [type->tp_alloc(type, 0)] returned, [None]
    for NULL. *)
Definition object_new (mem : option ObjectData) : option ObjectData :=
  match mem with
  | Some self => Some {| context := NULL; object := object self |}
  | None => None
  end.

(** object_dealloc. *)
Definition object_dealloc (self : ObjectData) : M E unit :=
  if negb (is_null (context self)) then
    JS_FreeValue (context self) (object self)
  else ret tt.

(** [PyObject_CallObject((PyObject * )&Object, NULL)]: the host runs
    [object_new] on storage of its own.  The source uses the answer
    unchecked; the model takes the host's allocation to succeed. *)
Definition PyObject_CallObject_Object : ObjectData :=
  let storage := {| context := NULL; object := mkJSValue 0 JS_TAG_INT |} in
  match object_new (Some storage) with
  | Some self => self
  | None => storage
  end.

Definition set_context (c : ptr) (o : ObjectData) : ObjectData :=
  {| context := c; object := object o |}.
Definition set_object (v : JSValue) (o : ObjectData) : ObjectData :=
  {| context := context o; object := v |}.

(** quickjs_to_python.  The chain of comparisons of [tag] with the enum
    constants is the match on the tag; every branch but the object one falls
    through to the release of [value] and the return ([None] for the NULL
    that [return_value] still is when a branch has raised; Py_RETURN_NONE
    and the plain return give back the same object). *)
Definition quickjs_to_python (c : ptr) (value : JSValue)
  : M E (option PyObject) :=
  let release_and_return (return_value : option PyObject) :=
    JS_FreeValue c value ;; ret return_value in
  match JS_VALUE_GET_TAG value with
  | JS_TAG_INT =>
      release_and_return (Some (PyLong (JS_VALUE_GET_INT value)))
  | JS_TAG_BOOL =>
      release_and_return
        (Some (PyBool (negb (JS_VALUE_GET_BOOL value =? 0))))
  | JS_TAG_NULL => release_and_return (Some Py_None)
  | JS_TAG_UNDEFINED => release_and_return (Some Py_None)
  | JS_TAG_UNINITIALIZED => release_and_return (Some Py_None)
  | JS_TAG_EXCEPTION =>
      exception <- JS_GetException c ;;
      error_string <- JS_ToString c exception ;;
      cstring <- JS_ToCString c error_string ;;
      PyErr_Format JSException cstring ;;
      JS_FreeCString c cstring ;;
      JS_FreeValue c error_string ;;
      JS_FreeValue c exception ;;
      release_and_return None
  | JS_TAG_FLOAT64 =>
      release_and_return (Some (PyFloat (JS_VALUE_GET_FLOAT64 value)))
  | JS_TAG_STRING =>
      cstring <- JS_ToCString c value ;;
      return_value <- Py_BuildValue_s cstring ;;
      JS_FreeCString c cstring ;;
      release_and_return return_value
  | JS_TAG_OBJECT =>
      let return_value := PyObject_CallObject_Object in
      ret (Some (PyObjectData (set_object value (set_context c return_value))))
  | JS_TAG_OTHER n =>
      PyErr_Format PyExc_ValueError ("Unknown quickjs tag: " ++ format_d n) ;;
      release_and_return None
  end.

(** The first loop of object_call: [true] when it runs to its end, [false]
    when it meets an item that is neither int nor str. *)
Fixpoint args_supported (args : list PyObject) : bool :=
  match args with
  | [] => true
  | item :: rest =>
      if PyLong_Check item then args_supported rest
      else if PyUnicode_Check item then args_supported rest
      else false
  end.

(** What a slot of the malloc'ed array holds when the second loop writes
    nothing to it (no item gets there once the first loop has passed). *)
Definition unwritten_slot : JSValue := mkJSValue 0 JS_TAG_UNINITIALIZED.

(** One turn of the second loop of object_call: the value written to
    [jsargs[i]] for [item].  JS_NewString is given a [const char *] and so
    reads the buffer of the str up to its first NUL; the buffer is then
    handed to PyMem_Free. *)
Definition fill_slot (c : ptr) (item : PyObject) : M E JSValue :=
  if PyLong_Check item then
    n <- PyLong_AsLong item ;; ret (JS_MKVAL JS_TAG_INT n)
  else if PyUnicode_Check item then
    let cstring := PyUnicode_AsUTF8 item in
    slot <- JS_NewString c (c_str cstring) ;;
    PyMem_Free cstring ;;
    ret slot
  else ret unwritten_slot.

(** The second loop of object_call: the array [jsargs], slot by slot. *)
Fixpoint fill_jsargs (c : ptr) (args : list PyObject) : M E (list JSValue) :=
  match args with
  | [] => ret []
  | item :: rest =>
      slot <- fill_slot c item ;;
      slots <- fill_jsargs c rest ;;
      ret (slot :: slots)
  end.

(** The third loop of object_call. *)
Fixpoint free_jsargs (c : ptr) (jsargs : list JSValue) : M E unit :=
  match jsargs with
  | [] => ret tt
  | v :: rest => JS_FreeValue c v ;; free_jsargs c rest
  end.

(** object_call.  [args] is the argument tuple, [nargs] its length; [kwds]
    is not read.  The engine call is given the count 1 and the array. *)
Definition object_call (self : ObjectData) (args : list PyObject)
  : M E (option PyObject) :=
  if is_null (context self) then ret (Some Py_None)
  else if negb (args_supported args) then
    PyErr_Format PyExc_ValueError
      "Unsupported type when calling quickjs object" ;;
    ret None
  else
    jsargs <- fill_jsargs (context self) args ;;
    value <- JS_Call (context self) (object self) JS_NULL 1 jsargs ;;
    free_jsargs (context self) jsargs ;;
    quickjs_to_python (context self) value.

(** test. *)
Definition test : option PyObject := Some (PyLong 42).

(** *** Context type *)

(** context_new.  [mem] is what [type->tp_alloc(type, 0)] returned. *)
Definition context_new (mem : option ContextData)
  : M E (option ContextData) :=
  match mem with
  | Some self =>
      rt <- JS_NewRuntime ;;
      c <- JS_NewContext rt ;;
      ret (Some {| runtime := rt; ctx := c |})
  | None => ret None
  end.

(** context_dealloc. *)
Definition context_dealloc (self : ContextData) : M E unit :=
  JS_FreeContext (ctx self) ;;
  JS_FreeRuntime (runtime self).

Fixpoint has_nul (s : string) : bool :=
  match s with
  | EmptyString => false
  | String a rest => (Ascii.eqb a Ascii.zero) || has_nul rest
  end.

(** [PyArg_ParseTuple(args, "s", &code)]: one argument, a str without an
    embedded NUL; otherwise the host sets an error of its own. *)
Definition PyArg_ParseTuple_s (args : list PyObject)
  : string + PyExc * string :=
  match args with
  | [PyUnicode s] =>
      if has_nul s then inr (PyExc_ValueError, "embedded null character"%string)
      else inl s
  | [_] => inr (PyExc_TypeError, "argument 1 must be str"%string)
  | _ => inr (PyExc_TypeError, "function takes exactly 1 argument"%string)
  end.

Definition strlen (s : string) : Z := Z.of_nat (String.length s).

(** context_eval. *)
Definition context_eval (self : ContextData) (args : list PyObject)
  : M E (option PyObject) :=
  match PyArg_ParseTuple_s args with
  | inr (exc, msg) => PyErr_Format exc msg ;; ret None
  | inl code =>
      value <- JS_Eval (ctx self) code (strlen code) "<input>"
                 JS_EVAL_TYPE_GLOBAL ;;
      quickjs_to_python (ctx self) value
  end.

(** *** The host's use of a session

    What host code does with a session between its construction and its
    destruction: calls of [eval] and calls of handles, with any arguments. *)
Inductive Use : Type :=
| UseEval (args : list PyObject)
| UseCall (handle : ObjectData) (args : list PyObject).

Definition use (self : ContextData) (x : Use) : M E (option PyObject) :=
  match x with
  | UseEval args => context_eval self args
  | UseCall handle args => object_call handle args
  end.

Fixpoint uses (self : ContextData) (xs : list Use) : M E unit :=
  match xs with
  | [] => ret tt
  | x :: rest => use self x ;; uses self rest
  end.

(** A session that is used and then destroyed, once. *)
Definition used_then_destroyed (self : ContextData) (xs : list Use)
  : M E unit :=
  uses self xs ;; context_dealloc self.

End Bridge.

(** ** Reading the record of calls *)

(** The values handed to JS_FreeValue, in order. *)
Fixpoint released (evs : list Event) : list JSValue :=
  match evs with
  | [] => []
  | EvFreeValue _ v :: rest => v :: released rest
  | _ :: rest => released rest
  end.

(** The values the bridge itself fetched from the engine while converting
    (the pending exception and its string form), in order. *)
Fixpoint fetched (evs : list Event) : list JSValue :=
  match evs with
  | [] => []
  | EvGetException _ v :: rest => v :: fetched rest
  | EvToString _ _ v :: rest => v :: fetched rest
  | _ :: rest => fetched rest
  end.

(** The releases of a session's own resources, in order. *)
Definition is_session_release (ev : Event) : bool :=
  match ev with
  | EvFreeContext _ | EvFreeRuntime _ => true
  | _ => false
  end.

Definition session_releases (evs : list Event) : list Event :=
  filter is_session_release evs.

(** What the engine reads of the array it is given: its first [argc]
    entries. *)
Definition arguments_received (argc : Z) (argv : list JSValue)
  : list JSValue :=
  firstn (Z.to_nat argc) argv.

(** The contexts that exist after a record of calls: answered by
    JS_NewContext and not given to JS_FreeContext since. *)
Fixpoint live_contexts (evs : list Event) (live : list ptr) : list ptr :=
  match evs with
  | [] => live
  | EvNewContext _ c :: rest =>
      live_contexts rest (if is_null c then live else c :: live)
  | EvFreeContext c :: rest =>
      live_contexts rest (filter (fun x => negb (x =? c)) live)
  | _ :: rest => live_contexts rest live
  end.

(** A context pointer is valid after [evs] when it is one of those. *)
Definition context_valid (c : ptr) (evs : list Event) : bool :=
  existsb (Z.eqb c) (live_contexts evs []).

(** The host types of the specification's data model: an integer, a
    boolean and a string are three types of their own. *)
Definition host_integer (item : PyObject) : bool :=
  match item with PyLong _ => true | _ => false end.

Definition host_boolean (item : PyObject) : bool :=
  match item with PyBool _ => true | _ => false end.

Definition host_string (item : PyObject) : bool :=
  match item with PyUnicode _ => true | _ => false end.

(** An argument the specification has rejected: neither a host integer nor
    a host string. *)
Definition unsupported (item : PyObject) : Prop :=
  host_integer item = false /\ host_string item = false.

(** The buffers given to PyMem_Free, in order. *)
Fixpoint host_frees (evs : list Event) : list string :=
  match evs with
  | [] => []
  | EvPyMem_Free buffer :: rest => buffer :: host_frees rest
  | _ :: rest => host_frees rest
  end.

(** ** A scripted engine

    An engine for running the module on concrete inputs: addresses are
    handed out in sequence, JS_Eval and JS_Call answer with the next value of
    a script, and [contexts] says how many contexts can still be created. *)
Record Script : Type := mkScript {
  fresh : Z;
  answers : list JSValue;
  contexts : nat
}.

Definition next_answer (s : Script) : JSValue * Script :=
  match answers s with
  | [] => (mkJSValue 0 JS_TAG_UNDEFINED, s)
  | v :: rest => (v, mkScript (fresh s) rest (contexts s))
  end.

Definition allocate (t : JSTag) (s : Script) : JSValue * Script :=
  (mkJSValue (fresh s) t, mkScript (fresh s + 1) (answers s) (contexts s)).

#[export] Instance scripted_engine : Engine Script := {
  eng_NewRuntime s := (fresh s, mkScript (fresh s + 1) (answers s) (contexts s));
  eng_NewContext rt s :=
    match contexts s with
    | O => (NULL, s)
    | S k => (fresh s, mkScript (fresh s + 1) (answers s) k)
    end;
  eng_FreeContext _ s := s;
  eng_FreeRuntime _ s := s;
  eng_Eval _ _ _ _ _ s := next_answer s;
  eng_Call _ _ _ _ _ s := next_answer s;
  eng_NewString _ _ s := allocate JS_TAG_STRING s;
  eng_FreeValue _ _ s := s;
  eng_GetException _ s := allocate JS_TAG_OBJECT s;
  eng_ToString _ _ s := allocate JS_TAG_STRING s;
  eng_ToCString _ _ s := ("Error: boom"%string, s);
  eng_FreeCString _ _ s := s
}.

(** The world before any call: the script [vs], [n] contexts to give, no
    error pending. *)
Definition script (vs : list JSValue) (n : nat) : World Script :=
  mkWorld (mkScript 16 vs n) None.

(** A handle bound to a context, one that never was, and a value that
    carries the exception marker. *)
Definition bound_handle : ObjectData :=
  {| context := 1; object := mkJSValue 7 JS_TAG_OBJECT |}.

Definition unbound_handle : ObjectData :=
  {| context := NULL; object := mkJSValue 0 JS_TAG_INT |}.

Definition marker : JSValue := mkJSValue 0 JS_TAG_EXCEPTION.


(** ** The whole life of a session *)

Section Lifecycle.

Context {E : Type} {eng : Engine E}.

(** A session from its construction to its destruction: [context_new] on
    the allocator's answer [mem], then, when an object came back, the host's
    uses of it and its one destruction. *)
Definition session_life (mem : option ContextData) (xs : list Use)
  : M E unit :=
  made <- context_new mem ;;
  match made with
  | Some self => used_then_destroyed self xs
  | None => ret tt
  end.

End Lifecycle.

(** ** More readers of the record of calls *)

(** An engine call made on the context [c]: every call but the four that
    make or release a runtime or a context.  The host call PyMem_Free is no
    engine call and touches no context. *)
Definition on_context (c : ptr) (ev : Event) : bool :=
  match ev with
  | EvEval c' _ _ _ _ _ | EvCall c' _ _ _ _ _ | EvNewString c' _ _
  | EvFreeValue c' _ | EvGetException c' _ | EvToString c' _ _
  | EvToCString c' _ _ | EvFreeCString c' _ => c' =? c
  | EvNewRuntime _ | EvNewContext _ _ | EvFreeContext _ | EvFreeRuntime _ =>
      false
  | EvPyMem_Free _ => true
  end.

(** The calls that make or release a runtime or a context, in order. *)
Definition is_session_event (ev : Event) : bool :=
  match ev with
  | EvNewRuntime _ | EvNewContext _ _ | EvFreeContext _ | EvFreeRuntime _ =>
      true
  | _ => false
  end.

Definition session_events (evs : list Event) : list Event :=
  filter is_session_event evs.

(** The texts given to JS_NewString, in order. *)
Fixpoint new_strings (evs : list Event) : list string :=
  match evs with
  | [] => []
  | EvNewString _ s _ :: rest => s :: new_strings rest
  | _ :: rest => new_strings rest
  end.

(** The values JS_NewString answered with, in order. *)
Fixpoint made_strings (evs : list Event) : list JSValue :=
  match evs with
  | [] => []
  | EvNewString _ _ v :: rest => v :: made_strings rest
  | _ :: rest => made_strings rest
  end.

(** The C strings JS_ToCString answered with, and those given to
    JS_FreeCString, in order. *)
Fixpoint cstrings_taken (evs : list Event) : list string :=
  match evs with
  | [] => []
  | EvToCString _ _ s :: rest => s :: cstrings_taken rest
  | _ :: rest => cstrings_taken rest
  end.

Fixpoint cstrings_freed (evs : list Event) : list string :=
  match evs with
  | [] => []
  | EvFreeCString _ s :: rest => s :: cstrings_freed rest
  | _ :: rest => cstrings_freed rest
  end.


(** The contents of the str items of a tuple, in order. *)
Fixpoint str_items (args : list PyObject) : list string :=
  match args with
  | [] => []
  | PyUnicode s :: rest => s :: str_items rest
  | _ :: rest => str_items rest
  end.

(** The slots of [jsargs] that stand at the index of a str item. *)
Fixpoint str_slots (args : list PyObject) (jsargs : list JSValue)
  : list JSValue :=
  match args, jsargs with
  | PyUnicode _ :: args', v :: jsargs' => v :: str_slots args' jsargs'
  | _ :: args', _ :: jsargs' => str_slots args' jsargs'
  | _, _ => []
  end.

(** The number of calls of JS_Call in a record. *)
Fixpoint function_calls (evs : list Event) : nat :=
  match evs with
  | [] => O
  | EvCall _ _ _ _ _ _ :: rest => S (function_calls rest)
  | _ :: rest => function_calls rest
  end.

(** The message of the host's OverflowError for an int beyond a C long. *)
Definition overflow_error : PyExc * string :=
  (PyExc_OverflowError, "Python int too large to convert to C long"%string).

(** The values the engine handed over with their ownership: the answers
    of JS_Eval, JS_Call, JS_NewString, JS_GetException and JS_ToString, in
    order. *)
Fixpoint acquired (evs : list Event) : list JSValue :=
  match evs with
  | [] => []
  | EvEval _ _ _ _ _ v :: rest => v :: acquired rest
  | EvCall _ _ _ _ _ v :: rest => v :: acquired rest
  | EvNewString _ _ v :: rest => v :: acquired rest
  | EvGetException _ v :: rest => v :: acquired rest
  | EvToString _ _ v :: rest => v :: acquired rest
  | _ :: rest => acquired rest
  end.

(** The value a returned host object keeps: that of a handle, none
    otherwise. *)
Definition retained (returned : option PyObject) : list JSValue :=
  match returned with
  | Some (PyObjectData h) => [object h]
  | _ => []
  end.

(** The int32 range. *)
Definition INT32_MIN : Z := - 2 ^ 31.
Definition INT32_MAX : Z := 2 ^ 31 - 1.

(** ** Module initialisation

    PyInit__quickjs talks to the host only.  The host is an interface of
    its own: the four functions of Python.h the initialisation calls, each
    with its answer (a status, negative on failure, or a pointer, NULL on
    failure).  Py_INCREF is reference counting and is left out. *)

(** The two static type objects of the module. *)
Inductive PyTypeName : Type := TypeContext | TypeObject.

(** What PyModule_AddObject is asked to add. *)
Inductive ModuleValue : Type :=
| MvType (t : PyTypeName)
| MvObject (p : ptr).

Inductive HostCall : Type :=
| HcTypeReady (t : PyTypeName) (ret : Z)
| HcModuleCreate (name : string) (methods : list string) (ret : ptr)
| HcNewException (name : string) (ret : ptr)
| HcAddObject (module : ptr) (name : string) (value : ModuleValue) (ret : Z).

Class Host (H : Type) : Type := {
  host_PyType_Ready : PyTypeName -> H -> Z * H;
  host_PyModule_Create : string -> list string -> H -> ptr * H;
  host_PyErr_NewException : string -> H -> ptr * H;
  host_PyModule_AddObject : ptr -> string -> ModuleValue -> H -> Z * H
}.

(** myextension_methods and moduledef: the names only. *)
Definition myextension_methods : list string := ["test"%string].
Definition moduledef_name : string := "quickjs".

(** The outcome of the initialisation: the pointer returned, the host it
    leaves, the static variable JSException and the host calls made. *)
Record InitRun (H : Type) : Type := mkInitRun {
  module : ptr;
  host_after : H;
  JSException_var : ptr;
  host_calls : list HostCall
}.
Arguments mkInitRun {H} _ _ _ _.
Arguments module {H} _.
Arguments host_after {H} _.
Arguments JSException_var {H} _.
Arguments host_calls {H} _.

(** PyInit__quickjs.  [var] is the static JSException before the call. *)
Definition PyInit__quickjs {H : Type} {host : Host H} (h : H) (var : ptr)
  : InitRun H :=
  let ready_c := host_PyType_Ready TypeContext h in
  let ev1 := HcTypeReady TypeContext (fst ready_c) in
  if fst ready_c <? 0 then mkInitRun NULL (snd ready_c) var [ev1]
  else
    let ready_o := host_PyType_Ready TypeObject (snd ready_c) in
    let ev2 := HcTypeReady TypeObject (fst ready_o) in
    if fst ready_o <? 0 then mkInitRun NULL (snd ready_o) var [ev1; ev2]
    else
      let created :=
        host_PyModule_Create moduledef_name myextension_methods
          (snd ready_o) in
      let m := fst created in
      let ev3 := HcModuleCreate moduledef_name myextension_methods m in
      if is_null m then mkInitRun NULL (snd created) var [ev1; ev2; ev3]
      else
        let exc :=
          host_PyErr_NewException "_quickjs.JSException" (snd created) in
        let e := fst exc in
        let ev4 := HcNewException "_quickjs.JSException" e in
        if is_null e then mkInitRun NULL (snd exc) e [ev1; ev2; ev3; ev4]
        else
          let add_c :=
            host_PyModule_AddObject m "Context" (MvType TypeContext)
              (snd exc) in
          let add_o :=
            host_PyModule_AddObject m "Object" (MvType TypeObject)
              (snd add_c) in
          let add_e :=
            host_PyModule_AddObject m "JSException" (MvObject e)
              (snd add_o) in
          mkInitRun m (snd add_e) e
            [ev1; ev2; ev3; ev4;
             HcAddObject m "Context" (MvType TypeContext) (fst add_c);
             HcAddObject m "Object" (MvType TypeObject) (fst add_o);
             HcAddObject m "JSException" (MvObject e) (fst add_e)].

(** A host whose answers are fixed in advance. *)
Record HostScript : Type := mkHostScript {
  ready_context : Z;
  ready_object : Z;
  module_answer : ptr;
  exception_answer : ptr;
  add_answer : Z
}.

#[export] Instance scripted_host : Host HostScript := {
  host_PyType_Ready t h :=
    (match t with
     | TypeContext => ready_context h
     | TypeObject => ready_object h
     end, h);
  host_PyModule_Create _ _ h := (module_answer h, h);
  host_PyErr_NewException _ h := (exception_answer h, h);
  host_PyModule_AddObject _ _ _ h := (add_answer h, h)
}.

(** * Properties *)

(** Case analysis on whether the C string at hand is UTF-8. *)
Ltac case_utf8 :=
  match goal with
  | |- context [utf8_valid ?x] => destruct (utf8_valid x) eqn:?
  | H : context [utf8_valid ?x] |- _ => destruct (utf8_valid x) eqn:?
  end.

Section Facts.

Context {E : Type} {eng : Engine E}.

Lemma released_app (a b : list Event) :
  released (a ++ b) = released a ++ released b.
Proof.
  induction a as [|ev a IH]; cbn; [reflexivity|].
  destruct ev; cbn; rewrite IH; reflexivity.
Qed.

Lemma session_releases_app (a b : list Event) :
  session_releases (a ++ b) = session_releases a ++ session_releases b.
Proof. apply filter_app. Qed.

Lemma released_frees (c : ptr) (vs : list JSValue) :
  released (map (EvFreeValue c) vs) = vs.
Proof. induction vs; cbn; congruence. Qed.

Lemma session_releases_frees (c : ptr) (vs : list JSValue) :
  session_releases (map (EvFreeValue c) vs) = [].
Proof. induction vs; cbn; auto. Qed.

(** The third loop releases the slots one by one, in order, and nothing
    else. *)
Lemma calls_free_jsargs (c : ptr) (jsargs : list JSValue) (w : World E) :
  calls (free_jsargs c jsargs w) = map (EvFreeValue c) jsargs.
Proof.
  revert w; induction jsargs as [|v rest IH]; intros w; cbn; [reflexivity|].
  rewrite IH; reflexivity.
Qed.

(** The second loop fills one slot per item. *)
Lemma fill_jsargs_length (c : ptr) (args : list PyObject) (w : World E) :
  List.length (result (fill_jsargs c args w)) = List.length args.
Proof.
  revert w; induction args as [|item rest IH]; intros w; cbn; [reflexivity|].
  rewrite IH; reflexivity.
Qed.

Lemma calls_bind {A B} (m : M E A) (f : A -> M E B) (w : World E) :
  calls (bind m f w) = calls (m w) ++ calls (f (result (m w)) (after (m w))).
Proof. reflexivity. Qed.

Lemma fill_slot_quiet (c : ptr) (item : PyObject) (w : World E) :
  released (calls (fill_slot c item w)) = []
  /\ session_releases (calls (fill_slot c item w)) = [].
Proof.
  unfold fill_slot.
  destruct item as [n|b|d| |s|o|t];
    cbn [PyLong_Check PyUnicode_Check PyLong_AsLong]; try (cbn; auto; fail).
  destruct ((LONG_MIN <=? n) && (n <=? LONG_MAX)); cbn; auto.
Qed.

(** The second loop only makes strings: it releases nothing and touches no
    session resource. *)
Lemma fill_jsargs_quiet (c : ptr) (args : list PyObject) (w : World E) :
  released (calls (fill_jsargs c args w)) = []
  /\ session_releases (calls (fill_jsargs c args w)) = [].
Proof.
  revert w; induction args as [|item rest IH]; intros w; [cbn; auto|].
  cbn [fill_jsargs]. rewrite !calls_bind.
  rewrite !released_app, !session_releases_app.
  destruct (fill_slot_quiet c item w) as [-> ->].
  destruct (IH (after (fill_slot c item w))) as [-> ->].
  cbn; auto.
Qed.

(** The converter never touches a session resource. *)
Lemma quickjs_to_python_session_quiet (c : ptr) (value : JSValue)
    (w : World E) :
  session_releases (calls (quickjs_to_python c value w)) = [].
Proof. destruct value as [uv []]; reflexivity. Qed.

(** The converter returns NULL on the exception marker, on an unknown tag
    and on a string whose C string is not UTF-8, and only there. *)
Lemma quickjs_to_python_null (c : ptr) (value : JSValue) (w : World E) :
  result (quickjs_to_python c value w) = None <->
  JS_VALUE_GET_TAG value = JS_TAG_EXCEPTION
  \/ (exists n, JS_VALUE_GET_TAG value = JS_TAG_OTHER n)
  \/ (JS_VALUE_GET_TAG value = JS_TAG_STRING
      /\ utf8_valid (fst (eng_ToCString c value (engine w))) = false).
Proof.
  destruct value as [uv t]; split.
  - destruct t; cbn [quickjs_to_python JS_VALUE_GET_TAG tag];
      try (cbn; intros H; try discriminate H; eauto; fail).
    cbn [bind result after JS_ToCString ask Py_BuildValue_s JS_FreeCString
         tell JS_FreeValue ret engine fst snd].
    destruct (utf8_valid (fst (eng_ToCString c {| u := uv; tag := JS_TAG_STRING |}
                                 (engine w)))) eqn:Hu;
      [intros H; discriminate H | intros _; auto].
  - intros [H | [[n H] | [H Hbad]]]; cbn [JS_VALUE_GET_TAG tag] in H;
      subst t; try reflexivity.
    cbn [quickjs_to_python JS_VALUE_GET_TAG tag bind result after
         JS_ToCString ask Py_BuildValue_s JS_FreeCString tell JS_FreeValue
         ret engine fst snd].
    rewrite Hbad. reflexivity.
Qed.

(** The calls of object_call once the context and the items have passed. *)
Lemma object_call_calls (self : ObjectData) (args : list PyObject)
    (w : World E) :
  is_null (context self) = false ->
  args_supported args = true ->
  let c := context self in
  let filled := fill_jsargs c args w in
  let jsargs := result filled in
  let called := JS_Call c (object self) JS_NULL 1 jsargs (after filled) in
  let freed := free_jsargs c jsargs (after called) in
  calls (object_call self args w) =
    calls filled
    ++ [EvCall c (object self) JS_NULL 1 jsargs (result called)]
    ++ map (EvFreeValue c) jsargs
    ++ calls (quickjs_to_python c (result called) (after freed)).
Proof.
  intros Hctx Hargs; unfold object_call; rewrite Hctx, Hargs.
  cbn [negb]. rewrite !calls_bind, calls_free_jsargs. reflexivity.
Qed.

(** The first loop stops exactly when some item is neither int nor str. *)
Lemma args_supported_false (args : list PyObject) :
  args_supported args = false <->
  exists item,
    In item args /\ PyLong_Check item = false /\ PyUnicode_Check item = false.
Proof.
  induction args as [|item rest IH]; cbn.
  - split; [discriminate | intros [x [[] _]]].
  - destruct (PyLong_Check item) eqn:HL.
    + rewrite IH; split.
      * intros [x [Hin Hx]]; eauto.
      * intros [x [[-> | Hin] [H1 H2]]]; [congruence | eauto].
    + destruct (PyUnicode_Check item) eqn:HU.
      * rewrite IH; split.
        -- intros [x [Hin Hx]]; eauto.
        -- intros [x [[-> | Hin] [H1 H2]]]; [congruence | eauto].
      * split; [intros _; exists item; auto | reflexivity].
Qed.

(** object_call touches no session resource, whatever it is given. *)
Lemma object_call_session_quiet (self : ObjectData) (args : list PyObject)
    (w : World E) :
  session_releases (calls (object_call self args w)) = [].
Proof.
  destruct (is_null (context self)) eqn:Hctx.
  - unfold object_call; rewrite Hctx; reflexivity.
  - destruct (args_supported args) eqn:Hargs.
    + rewrite object_call_calls by assumption. cbv zeta.
      rewrite !session_releases_app, quickjs_to_python_session_quiet.
      rewrite session_releases_frees.
      destruct (fill_jsargs_quiet (context self) args w) as [_ ->].
      reflexivity.
    + unfold object_call; rewrite Hctx, Hargs; reflexivity.
Qed.

(** context_eval touches no session resource, whatever it is given. *)
Lemma context_eval_session_quiet (self : ContextData) (args : list PyObject)
    (w : World E) :
  session_releases (calls (context_eval self args w)) = [].
Proof.
  unfold context_eval.
  destruct (PyArg_ParseTuple_s args) as [code | [exc msg]]; [|reflexivity].
  rewrite calls_bind, session_releases_app, quickjs_to_python_session_quiet.
  reflexivity.
Qed.

Lemma uses_session_quiet (self : ContextData) (xs : list Use) (w : World E) :
  session_releases (calls (uses self xs w)) = [].
Proof.
  revert w; induction xs as [|x rest IH]; intros w; [reflexivity|].
  cbn [uses]. rewrite calls_bind, session_releases_app, IH, app_nil_r.
  destruct x; cbn [use];
    [apply context_eval_session_quiet | apply object_call_session_quiet].
Qed.

(** ** The converter *)

(** C8.  The converter maps a value tagged null, undefined or uninitialized
    to the host's None, whatever the value carries and whatever the engine
    does: the three tags cannot be told apart in the result. *)
Theorem absence_tags_give_none (c : ptr) (value : JSValue) (w : World E) :
  JS_VALUE_GET_TAG value = JS_TAG_NULL
  \/ JS_VALUE_GET_TAG value = JS_TAG_UNDEFINED
  \/ JS_VALUE_GET_TAG value = JS_TAG_UNINITIALIZED ->
  result (quickjs_to_python c value w) = Some Py_None.
Proof.
  destruct value as [uv t]; cbn [JS_VALUE_GET_TAG tag].
  intros [-> | [-> | ->]]; reflexivity.
Qed.


(** The converter consumes the value it is given once.  On a tag other
    than object it releases, in this order, the values it fetched itself
    (last fetched first) and then the value it was given, and builds no
    handle; on the object tag it releases nothing and returns one new handle
    that holds the context and the value. *)
Lemma converter_consumes_its_value :
  (forall (c : ptr) (value : JSValue) (w : World E),
      JS_VALUE_GET_TAG value <> JS_TAG_OBJECT ->
      let r := quickjs_to_python c value w in
      released (calls r) = rev (fetched (calls r)) ++ [value]
      /\ forall o, result r <> Some (PyObjectData o))
  /\ (forall (c : ptr) (value : JSValue) (w : World E),
      JS_VALUE_GET_TAG value = JS_TAG_OBJECT ->
      let r := quickjs_to_python c value w in
      result r = Some (PyObjectData {| context := c; object := value |})
      /\ calls r = []).
Proof.
  split.
  - intros c [uv t] w Htag; cbn [JS_VALUE_GET_TAG tag] in Htag.
    destruct t; try congruence; cbn;
      (split; [reflexivity | try discriminate]).
    intros o. case_utf8; discriminate.
  - intros c [uv t] w Htag; cbn [JS_VALUE_GET_TAG tag] in Htag; subst t.
    cbn; auto.
Qed.

(** A tuple of ints only: object_call fills one slot per item without any
    engine or host call, makes the engine call, and then releases the slots,
    each once and in order, before it converts the answer, whatever the
    answer is. *)
Lemma int_arguments_are_released_once (self : ObjectData)
    (args : list PyObject) (w : World E) :
  is_null (context self) = false ->
  args_supported args = true ->
  str_items args = [] ->
  exists jsargs answer w',
    calls (object_call self args w) =
      [EvCall (context self) (object self) JS_NULL 1 jsargs answer]
      ++ map (EvFreeValue (context self)) jsargs
      ++ calls (quickjs_to_python (context self) answer w')
    /\ jsargs = result (fill_jsargs (context self) args w)
    /\ List.length jsargs = List.length args.
Proof.
  intros Hctx Hargs Hstr.
  pose proof (object_call_calls self args w Hctx Hargs) as Hcalls.
  cbv zeta in Hcalls.
  assert (Hfill : calls (fill_jsargs (context self) args w) = []).
  { clear Hcalls. revert w. induction args as [|item rest IH]; intros w;
      [reflexivity|].
    cbn [fill_jsargs]. rewrite !calls_bind.
    cbn in Hargs. unfold fill_slot.
    destruct item as [n|b|d| |s|o|t];
      cbn [PyLong_Check PyUnicode_Check PyLong_AsLong] in *;
      try discriminate Hargs; try discriminate Hstr.
    - rewrite (IH Hargs Hstr).
      destruct ((LONG_MIN <=? n) && (n <=? LONG_MAX)); reflexivity.
    - rewrite (IH Hargs Hstr). reflexivity. }
  rewrite Hfill in Hcalls. cbn [app] in Hcalls.
  eexists _, _, _; split; [exact Hcalls|].
  split; [reflexivity | apply fill_jsargs_length].
Qed.

(** C3, at the failing input.  A handle bound to a context is called with
    the int 5 and the str "a".  The JS string for "a" is made, and the next
    thing object_call does, before the engine call and before any release,
    is to hand the buffer of the str to PyMem_Free: a buffer the str owns and
    the allocator never gave out.  From there on the behaviour of the host
    heap is undefined, so the release of the transient values after the call
    is not what the code ensures. *)
Theorem str_argument_buffer_is_freed (func : JSValue) (w : World E) :
  let self := {| context := 1; object := func |} in
  let args := [PyLong 5; PyUnicode "a"] in
  args_supported args = true
  /\ exists rest,
       calls (object_call self args w) =
         EvNewString 1 "a" (fst (eng_NewString 1 "a" (engine w)))
         :: EvPyMem_Free "a"
         :: rest.
Proof.
  cbv zeta; split; [reflexivity|].
  eexists. reflexivity.
Qed.


(** ** Calling a handle *)

(** C7, as amended.  On a handle whose context is absent (the null
    pointer), object_call returns None for every argument tuple, makes no
    engine call and leaves the engine and the error indicator as they
    were. *)
Theorem null_context_call_returns_none (self : ObjectData)
    (args : list PyObject) (w : World E) :
  context self = NULL ->
  object_call self args w = mkRun (Some Py_None) w [].
Proof.
  intros Hctx; unfold object_call, is_null; rewrite Hctx; reflexivity.
Qed.

(** C4, as amended.  On a handle whose context is not null, a tuple with
    an item that is neither a host integer, nor a host boolean, nor a host
    string is rejected before anything reaches the engine: NULL is returned
    with ValueError pending, no engine or host call has been made (no value
    made, no call of the function) and the engine is unchanged. *)
Theorem unsupported_item_is_rejected (self : ObjectData)
    (args : list PyObject) (w : World E) :
  context self <> NULL ->
  (exists item,
      In item args /\ unsupported item /\ host_boolean item = false) ->
  let r := object_call self args w in
  result r = None
  /\ py_err (after r) =
       Some (PyExc_ValueError,
             "Unsupported type when calling quickjs object"%string)
  /\ calls r = []
  /\ engine (after r) = engine w.
Proof.
  intros Hctx [item [Hin [[Hint Hstr] Hbool]]].
  assert (Hbad : args_supported args = false).
  { apply args_supported_false. exists item. split; [exact Hin|].
    destruct item; cbn in *; try discriminate; auto. }
  apply Z.eqb_neq in Hctx.
  unfold object_call, is_null; rewrite Hctx, Hbad; cbn; auto.
Qed.

(** C1, at the failing input.  A handle bound to a context is called with
    the two integers 1 and 2.  Both are converted and stored, in order, but
    the engine call is made with an argument count of 1: with any engine,
    the function receives the first argument alone. *)
Theorem object_call_passes_argc_one (func : JSValue) (w : World E) :
  let self := {| context := 1; object := func |} in
  let args := [PyLong 1; PyLong 2] in
  let jsargs := [JS_MKVAL JS_TAG_INT 1; JS_MKVAL JS_TAG_INT 2] in
  exists answer rest,
    calls (object_call self args w) =
      EvCall 1 func JS_NULL 1 jsargs answer :: rest
    /\ arguments_received 1 jsargs = [JS_MKVAL JS_TAG_INT 1]
    /\ List.length (arguments_received 1 jsargs) <> List.length args.
Proof.
  cbv zeta. eexists _, _. split; [reflexivity|].
  split; [reflexivity | cbn; discriminate].
Qed.

(** X9.  Whatever the tuple, an engine call made by object_call has the
    argument count 1, JS_NULL as [this], and an array with one slot per item
    of the tuple. *)
Lemma object_call_argc (self : ObjectData) (args : list PyObject)
    (w : World E) (c : ptr) (func this : JSValue) (argc : Z)
    (argv : list JSValue) (answer : JSValue) :
  In (EvCall c func this argc argv answer) (calls (object_call self args w)) ->
  argc = 1 /\ this = JS_NULL /\ List.length argv = List.length args.
Proof.
  destruct (is_null (context self)) eqn:Hctx;
    [unfold object_call; rewrite Hctx; intros []|].
  destruct (args_supported args) eqn:Hargs;
    [|unfold object_call; rewrite Hctx, Hargs; intros []].
  rewrite object_call_calls by assumption. cbv zeta.
  rewrite !in_app_iff. intros [H | [H | [H | H]]].
  - exfalso. revert H. generalize w.
    induction args as [|item rest IH]; intros w0; [intros []|].
    cbn [fill_jsargs]. rewrite !calls_bind, !in_app_iff.
    cbn in Hargs.
    intros [H | [H | []]].
    + revert H. unfold fill_slot.
      destruct item as [n|b|d| |s|o|t];
        cbn [PyLong_Check PyUnicode_Check PyLong_AsLong];
        try (cbn; intuition discriminate).
      destruct ((LONG_MIN <=? n) && (n <=? LONG_MAX)); cbn; intuition.
    + apply IH in H; [exact H|].
      destruct (PyLong_Check item); [exact Hargs|].
      destruct (PyUnicode_Check item); [exact Hargs | discriminate].
  - destruct H as [H | []]. inversion H; subst.
    split; [reflexivity|]. split; [reflexivity | apply fill_jsargs_length].
  - apply in_map_iff in H. destruct H as [x [H _]]; discriminate.
  - exfalso. revert H.
    match goal with |- In _ (calls (quickjs_to_python ?c0 ?v ?w0)) -> _ =>
      destruct v as [uv t]; destruct t; cbn; intuition discriminate end.
Qed.

(** ** The life of a handle *)

(** C10.  On allocated storage object_new returns a handle, and that
    handle has the null context whatever the storage held; when the
    allocation failed it returns NULL.  object_dealloc releases the retained
    value, once, when the context is not null, and makes no engine call when
    it is null; so a handle that was never bound is destroyed without any
    release and without a look at its value field. *)
Theorem handle_released_only_when_bound :
  (forall storage : ObjectData,
      exists self,
        object_new (Some storage) = Some self
        /\ context self = NULL
        /\ forall w : World E, object_dealloc self w = mkRun tt w [])
  /\ object_new None = None
  /\ (forall (self : ObjectData) (w : World E),
      context self <> NULL ->
      calls (object_dealloc self w) =
        [EvFreeValue (context self) (object self)])
  /\ (forall (self : ObjectData) (w : World E),
      context self = NULL -> object_dealloc self w = mkRun tt w []).
Proof.
  assert (Hnull : forall self (w : World E),
             context self = NULL -> object_dealloc self w = mkRun tt w []).
  { intros self w H; unfold object_dealloc, is_null; rewrite H; reflexivity. }
  split; [|split; [reflexivity|split; [|exact Hnull]]].
  - intros storage. eexists; split; [reflexivity|].
    split; [reflexivity|]. intros w; apply Hnull; reflexivity.
  - intros self w H; apply Z.eqb_neq in H.
    unfold object_dealloc, is_null; rewrite H; reflexivity.
Qed.

(** ** The life of a session *)

(** context_new returns NULL only when the host's allocation did. *)
Lemma context_new_null (mem : option ContextData) (w : World E) :
  result (context_new mem w) = None <-> mem = None.
Proof. destruct mem; cbn; split; congruence. Qed.

(** C6, at the failing input.  The host's allocation succeeds, the engine
    gives a runtime and then no context.  context_new returns a session
    all the same: it holds the runtime and a null context, and the runtime
    has not been released. *)
Theorem context_new_returns_session_without_context (mem : ContextData)
    (w : World E) :
  let rt := fst (eng_NewRuntime (engine w)) in
  fst (eng_NewContext rt (snd (eng_NewRuntime (engine w)))) = NULL ->
  let r := context_new (Some mem) w in
  result r = Some {| runtime := rt; ctx := NULL |}
  /\ calls r = [EvNewRuntime rt; EvNewContext rt NULL]
  /\ py_err (after r) = py_err w.
Proof.
  cbn. intros ->. auto.
Qed.

(** C9.  context_dealloc releases the context and then the runtime, and
    makes no other engine call.  However the session was used before (any
    sequence of evaluations and handle calls, with any arguments and any
    answers of the engine, failed or not), the one destruction is the only
    release of a context or a runtime, context first. *)
Theorem session_released_once_in_order (self : ContextData)
    (xs : list Use) (w : World E) :
  calls (context_dealloc self w) =
    [EvFreeContext (ctx self); EvFreeRuntime (runtime self)]
  /\ session_releases (calls (used_then_destroyed self xs w)) =
       [EvFreeContext (ctx self); EvFreeRuntime (runtime self)].
Proof.
  split; [reflexivity|].
  unfold used_then_destroyed.
  rewrite calls_bind, session_releases_app, uses_session_quiet.
  reflexivity.
Qed.

End Facts.

(** * The module on the scripted engine *)


(** The check of the context comes before the check of the items: on a
    handle without a context a float argument is not rejected; None is
    returned and no error is pending. *)
Lemma unbound_handle_rejects_nothing :
  let args := [PyFloat 0] in
  let r := object_call unbound_handle args (script [] 1) in
  (exists item, In item args /\ unsupported item)
  /\ result r = Some Py_None
  /\ py_err (after r) = None.
Proof.
  cbv zeta; split; [|split; reflexivity].
  exists (PyFloat 0); cbn; unfold unsupported; auto.
Qed.

(** C4, as stated, fails.  A host boolean is neither a host integer nor a
    host string, yet on a handle bound to a context it is not rejected: it
    passes the integer check of the first loop, is stored as the JS integer
    1, the engine call is made with it and the answer is returned with no
    error pending. *)
Lemma boolean_argument_is_not_rejected :
  let args := [PyBool true] in
  let r := object_call bound_handle args
             (script [mkJSValue 2 JS_TAG_INT] 1) in
  context bound_handle <> NULL
  /\ (exists item, In item args /\ unsupported item)
  /\ result r = Some (PyLong 2)
  /\ py_err (after r) = None
  /\ calls r =
       [EvCall 1 (mkJSValue 7 JS_TAG_OBJECT) JS_NULL 1
          [JS_MKVAL JS_TAG_INT 1] (mkJSValue 2 JS_TAG_INT);
        EvFreeValue 1 (JS_MKVAL JS_TAG_INT 1);
        EvFreeValue 1 (mkJSValue 2 JS_TAG_INT)].
Proof.
  cbv zeta; split; [discriminate|]. split; [|repeat split].
  exists (PyBool true); cbn; unfold unsupported; auto.
Qed.

(** C7, as stated, fails for a context that is no longer valid.  A session
    is made, an evaluation answers with a function and so yields a handle,
    and the session is destroyed.  The handle keeps the address of the
    released context; called with 41, it is not turned away: the engine call
    is made on the released context and its answer is returned. *)
Lemma stale_handle_reaches_engine :
  let func := mkJSValue 7 JS_TAG_OBJECT in
  let made := context_new (Some (mkContextData 0 0))
                (script [func; mkJSValue 42 JS_TAG_INT] 1) in
  let session := {| runtime := 16; ctx := 17 |} in
  let handle := {| context := 17; object := func |} in
  let evaluated := context_eval session [PyUnicode "f"] (after made) in
  let destroyed := context_dealloc session (after evaluated) in
  let called := object_call handle [PyLong 41] (after destroyed) in
  result made = Some session
  /\ result evaluated = Some (PyObjectData handle)
  /\ context_valid (context handle) (calls made ++ calls evaluated) = true
  /\ context_valid (context handle)
       (calls made ++ calls evaluated ++ calls destroyed) = false
  /\ calls called =
       [EvCall 17 func JS_NULL 1 [JS_MKVAL JS_TAG_INT 41]
          (mkJSValue 42 JS_TAG_INT);
        EvFreeValue 17 (JS_MKVAL JS_TAG_INT 41);
        EvFreeValue 17 (mkJSValue 42 JS_TAG_INT)]
  /\ result called = Some (PyLong 42).
Proof.
  cbv zeta; repeat split.
Qed.

(** A host boolean passes the integer check of object_call and reaches the
    engine as the integer 1. *)
Lemma boolean_argument_is_converted :
  args_supported [PyBool true] = true
  /\ calls (object_call bound_handle [PyBool true] (script [] 1)) =
       [EvCall 1 (mkJSValue 7 JS_TAG_OBJECT) JS_NULL 1
          [JS_MKVAL JS_TAG_INT 1] (mkJSValue 0 JS_TAG_UNDEFINED);
        EvFreeValue 1 (JS_MKVAL JS_TAG_INT 1);
        EvFreeValue 1 (mkJSValue 0 JS_TAG_UNDEFINED)].
Proof. split; reflexivity. Qed.

(** The theorems above, run on the scripted engine. *)

Lemma absence_tags_give_none_witness :
  JS_VALUE_GET_TAG (mkJSValue 0 JS_TAG_UNDEFINED) = JS_TAG_UNDEFINED
  /\ result (quickjs_to_python 1 (mkJSValue 0 JS_TAG_UNDEFINED)
               (script [] 1)) = Some Py_None.
Proof.
  split; [reflexivity|].
  apply absence_tags_give_none. right; left; reflexivity.
Defined.



Lemma null_context_call_returns_none_witness :
  context unbound_handle = NULL
  /\ object_call unbound_handle [PyFloat 0; PyLong 1] (script [] 1) =
       mkRun (Some Py_None) (script [] 1) [].
Proof.
  split; [reflexivity|].
  apply null_context_call_returns_none; reflexivity.
Defined.

Lemma unsupported_item_is_rejected_witness :
  let args := [PyLong 1; PyFloat 0; PyUnicode "a"] in
  let r := object_call bound_handle args (script [] 1) in
  context bound_handle <> NULL
  /\ (exists item,
        In item args /\ unsupported item /\ host_boolean item = false)
  /\ result r = None
  /\ py_err (after r) =
       Some (PyExc_ValueError,
             "Unsupported type when calling quickjs object"%string)
  /\ calls r = []
  /\ engine (after r) = engine (script [] 1).
Proof.
  assert (Hctx : context bound_handle <> NULL) by discriminate.
  assert (Hbad : exists item,
             In item [PyLong 1; PyFloat 0; PyUnicode "a"]
             /\ unsupported item /\ host_boolean item = false).
  { exists (PyFloat 0); cbn; unfold unsupported; auto. }
  split; [exact Hctx|]. split; [exact Hbad|].
  exact (unsupported_item_is_rejected bound_handle
           [PyLong 1; PyFloat 0; PyUnicode "a"] (script [] 1) Hctx Hbad).
Defined.

Lemma handle_released_only_when_bound_witness :
  (exists self,
      object_new (Some bound_handle) = Some self
      /\ context self = NULL
      /\ forall w : World Script, object_dealloc self w = mkRun tt w [])
  /\ context bound_handle <> NULL
  /\ calls (object_dealloc bound_handle (script [] 1)) =
       [EvFreeValue 1 (mkJSValue 7 JS_TAG_OBJECT)]
  /\ context unbound_handle = NULL
  /\ object_dealloc unbound_handle (script [] 1) = mkRun tt (script [] 1) [].
Proof.
  destruct (@handle_released_only_when_bound Script scripted_engine)
    as [Hnew [_ [Hbound Hnull]]].
  assert (Hctx : context bound_handle <> NULL) by discriminate.
  split; [exact (Hnew bound_handle)|].
  split; [exact Hctx|].
  split; [exact (Hbound bound_handle (script [] 1) Hctx)|].
  split; [reflexivity|].
  exact (Hnull unbound_handle (script [] 1) eq_refl).
Defined.

Lemma context_new_returns_session_without_context_witness :
  let w := script [] 0 in
  fst (eng_NewContext 16 (snd (eng_NewRuntime (engine w)))) = NULL
  /\ result (context_new (Some (mkContextData 0 0)) w) =
       Some {| runtime := 16; ctx := NULL |}
  /\ calls (context_new (Some (mkContextData 0 0)) w) =
       [EvNewRuntime 16; EvNewContext 16 NULL]
  /\ py_err (after (context_new (Some (mkContextData 0 0)) w)) = None.
Proof.
  split; [reflexivity|].
  exact (context_new_returns_session_without_context
           (mkContextData 0 0) (script [] 0) eq_refl).
Defined.

(** * Further properties of the module *)

Section Further.

Context {E : Type} {eng : Engine E}.

(** ** Integer arguments *)

Lemma int32_of_range (z : Z) : INT32_MIN <= int32_of z <= INT32_MAX.
Proof.
  unfold int32_of, INT32_MIN, INT32_MAX.
  pose proof (Z.mod_pos_bound (z + 2 ^ 31) (2 ^ 32) ltac:(lia)). lia.
Qed.

Lemma int32_of_small (z : Z) :
  INT32_MIN <= z <= INT32_MAX -> int32_of z = z.
Proof.
  unfold int32_of, INT32_MIN, INT32_MAX; intros H.
  rewrite Z.mod_small by lia. lia.
Qed.

Lemma int32_of_congruent (z : Z) : (int32_of z - z) mod 2 ^ 32 = 0.
Proof.
  unfold int32_of.
  rewrite (Z.mod_eq (z + 2 ^ 31) (2 ^ 32)) by lia.
  replace (z + 2 ^ 31 - 2 ^ 32 * ((z + 2 ^ 31) / 2 ^ 32) - 2 ^ 31 - z)
    with (- ((z + 2 ^ 31) / 2 ^ 32) * 2 ^ 32) by ring.
  apply Z.mod_mul. lia.
Qed.

(** X1.  An int argument within the int32 range goes to the engine and comes
    back unchanged: the second loop of object_call stores it as a JS integer
    without an engine call and without an error, and the converter turns
    that JS integer back into the same int. *)
Theorem int_argument_round_trip (c c' : ptr) (n : Z) (w w' : World E) :
  INT32_MIN <= n <= INT32_MAX ->
  let slot := fill_slot c (PyLong n) w in
  result slot = mkJSValue n JS_TAG_INT
  /\ calls slot = []
  /\ after slot = w
  /\ result (quickjs_to_python c' (result slot) w') = Some (PyLong n).
Proof.
  intros Hn. unfold fill_slot; cbn [PyLong_Check PyLong_AsLong].
  assert (Hlong : (LONG_MIN <=? n) && (n <=? LONG_MAX) = true).
  { unfold INT32_MIN, INT32_MAX in Hn. unfold LONG_MIN, LONG_MAX.
    apply andb_true_iff; split; apply Z.leb_le; lia. }
  rewrite Hlong. cbn. unfold JS_MKVAL, JS_VALUE_GET_INT; cbn.
  rewrite !int32_of_small by (try rewrite int32_of_small; assumption).
  destruct w; auto.
Qed.

(** X2.  An int argument that fits a C long but not an int32 is not
    rejected: it is stored, without an error and without an engine call, as
    a different integer, the int32 that agrees with it modulo 2^32, and that
    is what the converter gives back for it. *)
Theorem int_argument_wraps_to_int32 (c c' : ptr) (n : Z) (w w' : World E) :
  LONG_MIN <= n <= LONG_MAX ->
  n < INT32_MIN \/ INT32_MAX < n ->
  let slot := fill_slot c (PyLong n) w in
  exists k,
    result slot = mkJSValue k JS_TAG_INT
    /\ result (quickjs_to_python c' (result slot) w') = Some (PyLong k)
    /\ after slot = w
    /\ calls slot = []
    /\ INT32_MIN <= k <= INT32_MAX
    /\ (k - n) mod 2 ^ 32 = 0
    /\ k <> n.
Proof.
  intros Hn Hout. unfold fill_slot; cbn [PyLong_Check PyLong_AsLong].
  assert (Hlong : (LONG_MIN <=? n) && (n <=? LONG_MAX) = true).
  { apply andb_true_iff; split; apply Z.leb_le; lia. }
  rewrite Hlong. exists (int32_of n). cbn.
  unfold JS_MKVAL, JS_VALUE_GET_INT; cbn.
  rewrite (int32_of_small (int32_of n)) by apply int32_of_range.
  split; [reflexivity|]. split; [reflexivity|].
  split; [destruct w; reflexivity|]. split; [reflexivity|].
  split; [apply int32_of_range|]. split; [apply int32_of_congruent|].
  pose proof (int32_of_range n). lia.
Qed.

Lemma host_frees_app (a b : list Event) :
  host_frees (a ++ b) = host_frees a ++ host_frees b.
Proof.
  induction a as [|ev a IH]; cbn; [reflexivity|].
  destruct ev; cbn; rewrite IH; reflexivity.
Qed.

Lemma host_frees_of_frees (c : ptr) (vs : list JSValue) :
  host_frees (map (EvFreeValue c) vs) = [].
Proof. induction vs; cbn; auto. Qed.

(** The converter never calls PyMem_Free. *)
Lemma host_frees_of_converter (c : ptr) (value : JSValue) (w : World E) :
  host_frees (calls (quickjs_to_python c value w)) = [].
Proof. destruct value as [uv []]; reflexivity. Qed.

(** The steps of object_call once the context and the items have passed. *)
Lemma object_call_steps (self : ObjectData) (args : list PyObject)
    (w : World E) :
  is_null (context self) = false ->
  args_supported args = true ->
  object_call self args w =
    (jsargs <- fill_jsargs (context self) args ;;
     value <- JS_Call (context self) (object self) JS_NULL 1 jsargs ;;
     free_jsargs (context self) jsargs ;;
     quickjs_to_python (context self) value) w.
Proof.
  intros Hctx Hargs; unfold object_call; rewrite Hctx, Hargs; reflexivity.
Qed.

Lemma free_jsargs_keeps_error (c : ptr) (jsargs : list JSValue)
    (w : World E) :
  py_err (after (free_jsargs c jsargs w)) = py_err w.
Proof.
  revert w; induction jsargs as [|v rest IH]; intros w; cbn; [reflexivity|].
  rewrite IH; reflexivity.
Qed.

(** The converter sets an error only when it returns NULL. *)
Lemma quickjs_to_python_keeps_error (c : ptr) (value : JSValue)
    (w : World E) :
  result (quickjs_to_python c value w) <> None ->
  py_err (after (quickjs_to_python c value w)) = py_err w.
Proof.
  destruct value as [uv []]; cbn; try congruence.
  case_utf8; congruence.
Qed.

(** A pending OverflowError stays pending through the second loop. *)
Lemma fill_slot_keeps_overflow (c : ptr) (item : PyObject) (w : World E) :
  py_err w = Some overflow_error ->
  py_err (after (fill_slot c item w)) = Some overflow_error.
Proof.
  intros H; unfold fill_slot.
  destruct item as [n|b|d| |s|o|t];
    cbn [PyLong_Check PyUnicode_Check PyLong_AsLong]; try exact H.
  destruct ((LONG_MIN <=? n) && (n <=? LONG_MAX)); [exact H | reflexivity].
Qed.

Lemma fill_jsargs_keeps_overflow (c : ptr) (args : list PyObject)
    (w : World E) :
  py_err w = Some overflow_error ->
  py_err (after (fill_jsargs c args w)) = Some overflow_error.
Proof.
  revert w; induction args as [|item rest IH]; intros w H; [exact H|].
  cbn [fill_jsargs]. cbn [bind after ret].
  apply IH, fill_slot_keeps_overflow, H.
Qed.

Lemma fill_slot_overflow (c : ptr) (n : Z) (w : World E) :
  n < LONG_MIN \/ LONG_MAX < n ->
  result (fill_slot c (PyLong n) w) = JS_MKVAL JS_TAG_INT (-1)
  /\ py_err (after (fill_slot c (PyLong n) w)) = Some overflow_error.
Proof.
  intros Hn; unfold fill_slot; cbn [PyLong_Check PyLong_AsLong].
  assert (Hlong : (LONG_MIN <=? n) && (n <=? LONG_MAX) = false).
  { apply andb_false_iff. destruct Hn; [left | right]; apply Z.leb_gt; lia. }
  rewrite Hlong; split; reflexivity.
Qed.

Lemma fill_jsargs_overflow (c : ptr) (args : list PyObject) (n : Z)
    (w : World E) :
  In (PyLong n) args ->
  n < LONG_MIN \/ LONG_MAX < n ->
  In (JS_MKVAL JS_TAG_INT (-1)) (result (fill_jsargs c args w))
  /\ py_err (after (fill_jsargs c args w)) = Some overflow_error.
Proof.
  intros Hin Hn; revert w; induction args as [|item rest IH]; intros w;
    [destruct Hin|].
  cbn [fill_jsargs]. cbn [bind result after ret].
  destruct Hin as [-> | Hin].
  - destruct (fill_slot_overflow c n w Hn) as [-> Herr].
    split; [left; reflexivity|].
    apply fill_jsargs_keeps_overflow, Herr.
  - destruct (IH Hin (after (fill_slot c item w))) as [Hslot Herr].
    split; [right; exact Hslot | exact Herr].
Qed.

(** X3.  In a tuple of ints, an int beyond a C long does not stop the call.
    The host leaves OverflowError pending and the slot gets the integer -1;
    the engine call is made with it all the same, and when the answer
    converts to a value, that value is returned while the error is still
    pending. *)
Theorem overflowing_int_is_passed_as_minus_one (self : ObjectData)
    (args : list PyObject) (n : Z) (w : World E) :
  context self <> NULL ->
  args_supported args = true ->
  str_items args = [] ->
  In (PyLong n) args ->
  n < LONG_MIN \/ LONG_MAX < n ->
  let r := object_call self args w in
  host_frees (calls r) = []
  /\ (exists argv answer,
        In (EvCall (context self) (object self) JS_NULL 1 argv answer)
           (calls r)
        /\ In (JS_MKVAL JS_TAG_INT (-1)) argv)
  /\ (result r <> None -> py_err (after r) = Some overflow_error).
Proof.
  intros Hctx Hargs Hstr Hin Hn. apply Z.eqb_neq in Hctx. cbv zeta.
  destruct (int_arguments_are_released_once self args w Hctx Hargs Hstr)
    as [jsargs [answer [w' [Hcalls [Hjs _]]]]].
  split.
  { rewrite Hcalls. cbn [app host_frees]. rewrite host_frees_app.
    rewrite host_frees_of_frees, host_frees_of_converter. reflexivity. }
  rewrite (object_call_steps self args w Hctx Hargs).
  destruct (fill_jsargs_overflow (context self) args n w Hin Hn)
    as [Hslot Herr].
  split.
  - eexists _, _; split; [|exact Hslot].
    rewrite !calls_bind, !in_app_iff. right; left. left; reflexivity.
  - cbn [bind result after]. intros Hres.
    rewrite quickjs_to_python_keeps_error by exact Hres.
    rewrite free_jsargs_keeps_error. exact Herr.
Qed.

(** ** What reaches the engine *)

Lemma new_strings_app (a b : list Event) :
  new_strings (a ++ b) = new_strings a ++ new_strings b.
Proof.
  induction a as [|ev a IH]; cbn; [reflexivity|].
  destruct ev; cbn; rewrite IH; reflexivity.
Qed.

Lemma made_strings_app (a b : list Event) :
  made_strings (a ++ b) = made_strings a ++ made_strings b.
Proof.
  induction a as [|ev a IH]; cbn; [reflexivity|].
  destruct ev; cbn; rewrite IH; reflexivity.
Qed.

Lemma function_calls_app (a b : list Event) :
  function_calls (a ++ b) = (function_calls a + function_calls b)%nat.
Proof.
  induction a as [|ev a IH]; cbn; [reflexivity|].
  destruct ev; cbn; rewrite IH; reflexivity.
Qed.

Lemma frees_are_plain (c : ptr) (vs : list JSValue) :
  new_strings (map (EvFreeValue c) vs) = []
  /\ made_strings (map (EvFreeValue c) vs) = []
  /\ function_calls (map (EvFreeValue c) vs) = O
  /\ forallb (on_context c) (map (EvFreeValue c) vs) = true.
Proof.
  induction vs as [|v vs IH]; cbn; [auto|].
  rewrite Z.eqb_refl; exact IH.
Qed.

Lemma quickjs_to_python_is_plain (c : ptr) (value : JSValue) (w : World E) :
  new_strings (calls (quickjs_to_python c value w)) = []
  /\ made_strings (calls (quickjs_to_python c value w)) = []
  /\ function_calls (calls (quickjs_to_python c value w)) = O
  /\ forallb (on_context c) (calls (quickjs_to_python c value w)) = true.
Proof.
  destruct value as [uv []]; cbn; rewrite ?Z.eqb_refl; auto.
Qed.

Lemma fill_slot_strings (c : ptr) (item : PyObject) (w : World E) :
  let r := fill_slot c item w in
  new_strings (calls r) = map c_str (str_items [item])
  /\ made_strings (calls r) = str_slots [item] [result r]
  /\ function_calls (calls r) = O
  /\ forallb (on_context c) (calls r) = true.
Proof.
  unfold fill_slot.
  destruct item as [n|b|d| |s|o|t];
    cbn [PyLong_Check PyUnicode_Check PyLong_AsLong];
    try (cbn; rewrite ?Z.eqb_refl; auto; fail).
  destruct ((LONG_MIN <=? n) && (n <=? LONG_MAX)); cbn; auto.
Qed.

Lemma fill_jsargs_strings (c : ptr) (args : list PyObject) (w : World E) :
  let r := fill_jsargs c args w in
  new_strings (calls r) = map c_str (str_items args)
  /\ made_strings (calls r) = str_slots args (result r)
  /\ function_calls (calls r) = O
  /\ forallb (on_context c) (calls r) = true.
Proof.
  revert w; induction args as [|item rest IH]; intros w; [cbn; auto|].
  cbv zeta. cbn [fill_jsargs]. rewrite !calls_bind.
  cbn [bind result after ret calls]. rewrite app_nil_r.
  rewrite new_strings_app, made_strings_app, function_calls_app, forallb_app.
  destruct (fill_slot_strings c item w) as [H1 [H2 [H3 H4]]].
  destruct (IH (after (fill_slot c item w))) as [I1 [I2 [I3 I4]]].
  rewrite H1, H2, H3, H4, I1, I2, I3, I4.
  destruct item; cbn; auto.
Qed.




(** X5.  object_call calls the retained function at most once: not at all
    when the context is null or an item is rejected, and exactly once when
    the context is not null and every item is an int. *)
Theorem function_is_called_at_most_once (self : ObjectData)
    (args : list PyObject) (w : World E) :
  (is_null (context self) || negb (args_supported args) = true ->
   function_calls (calls (object_call self args w)) = O)
  /\ (is_null (context self) = false ->
      args_supported args = true ->
      str_items args = [] ->
      function_calls (calls (object_call self args w)) = 1%nat).
Proof.
  split.
  - intros H. unfold object_call.
    destruct (is_null (context self)); [reflexivity|].
    cbn in H. rewrite H. reflexivity.
  - intros Hctx Hargs _.
    rewrite (object_call_calls self args w Hctx Hargs). cbv zeta.
    rewrite !function_calls_app.
    destruct (fill_jsargs_strings (context self) args w) as [_ [_ [H _]]].
    cbv zeta in H; rewrite H.
    match goal with
    | |- context [quickjs_to_python ?c0 ?v ?w0] =>
        destruct (quickjs_to_python_is_plain c0 v w0) as [_ [_ [Q _]]]
    end.
    rewrite Q.
    destruct (frees_are_plain (context self)
                (result (fill_jsargs (context self) args w)))
      as [_ [_ [F _]]].
    rewrite F. reflexivity.
Qed.

Lemma object_call_on_context (self : ObjectData) (args : list PyObject)
    (w : World E) :
  forallb (on_context (context self)) (calls (object_call self args w)) = true.
Proof.
  destruct (is_null (context self)) eqn:Hctx;
    [unfold object_call; rewrite Hctx; reflexivity|].
  destruct (args_supported args) eqn:Hargs;
    [|unfold object_call; rewrite Hctx, Hargs; reflexivity].
  rewrite (object_call_calls self args w Hctx Hargs). cbv zeta.
  rewrite !forallb_app.
  destruct (fill_jsargs_strings (context self) args w) as [_ [_ [_ H]]].
  cbv zeta in H; rewrite H.
  match goal with
  | |- context [quickjs_to_python ?c0 ?v ?w0] =>
      destruct (quickjs_to_python_is_plain c0 v w0) as [_ [_ [_ Q]]]
  end.
  rewrite Q.
  destruct (frees_are_plain (context self)
              (result (fill_jsargs (context self) args w)))
    as [_ [_ [_ F]]].
  rewrite F. cbn. rewrite Z.eqb_refl. reflexivity.
Qed.

Lemma object_dealloc_on_context (self : ObjectData) (w : World E) :
  forallb (on_context (context self)) (calls (object_dealloc self w)) = true.
Proof.
  unfold object_dealloc.
  destruct (is_null (context self)); cbn; rewrite ?Z.eqb_refl; reflexivity.
Qed.

Lemma context_eval_on_context (self : ContextData) (args : list PyObject)
    (w : World E) :
  forallb (on_context (ctx self)) (calls (context_eval self args w)) = true.
Proof.
  unfold context_eval.
  destruct (PyArg_ParseTuple_s args) as [code | [exc msg]]; [|reflexivity].
  rewrite calls_bind, forallb_app.
  match goal with
  | |- context [quickjs_to_python ?c0 ?v ?w0] =>
      destruct (quickjs_to_python_is_plain c0 v w0) as [_ [_ [_ Q]]]
  end.
  rewrite Q. cbn. rewrite Z.eqb_refl. reflexivity.
Qed.

(** X6.  The module keeps to the context it is given: every engine call of
    object_call and of object_dealloc is made on the context of the handle,
    and every engine call of context_eval on the context of the session;
    none of them makes or releases a runtime or a context. *)
Theorem calls_stay_on_the_context (w : World E) :
  (forall (self : ObjectData) (args : list PyObject),
      forallb (on_context (context self)) (calls (object_call self args w))
      = true)
  /\ (forall self : ObjectData,
      forallb (on_context (context self)) (calls (object_dealloc self w))
      = true)
  /\ (forall (self : ContextData) (args : list PyObject),
      forallb (on_context (ctx self)) (calls (context_eval self args w))
      = true).
Proof.
  split; [|split]; intros.
  - apply object_call_on_context.
  - apply object_dealloc_on_context.
  - apply context_eval_on_context.
Qed.

(** ** Handles *)

(** The converter returns a handle only for an object, and the handle holds
    the context and the value it was given. *)
Lemma quickjs_to_python_handle (c : ptr) (value : JSValue) (w : World E)
    (h : ObjectData) :
  result (quickjs_to_python c value w) = Some (PyObjectData h) ->
  h = {| context := c; object := value |}
  /\ JS_VALUE_GET_TAG value = JS_TAG_OBJECT.
Proof.
  destruct value as [uv []]; cbn; intros H; try discriminate H.
  - case_utf8; discriminate H.
  - injection H as <-; auto.
Qed.

(** X7.  A handle that a call or an evaluation returns is bound to the
    context it came from: a handle returned by object_call has the context
    of the called handle, which is not null, and retains the answer of that
    engine call; a handle returned by context_eval has the context of the
    session and retains the answer of the evaluation. *)
Theorem returned_handle_keeps_the_context :
  (forall (self : ObjectData) (args : list PyObject) (w : World E)
          (h : ObjectData),
      result (object_call self args w) = Some (PyObjectData h) ->
      context h = context self
      /\ context h <> NULL
      /\ JS_VALUE_GET_TAG (object h) = JS_TAG_OBJECT
      /\ exists argv,
           In (EvCall (context self) (object self) JS_NULL 1 argv (object h))
              (calls (object_call self args w)))
  /\ (forall (self : ContextData) (args : list PyObject) (w : World E)
          (h : ObjectData),
      result (context_eval self args w) = Some (PyObjectData h) ->
      context h = ctx self
      /\ JS_VALUE_GET_TAG (object h) = JS_TAG_OBJECT
      /\ exists code,
           args = [PyUnicode code]
           /\ In (EvEval (ctx self) code (strlen code) "<input>"
                    JS_EVAL_TYPE_GLOBAL (object h))
                 (calls (context_eval self args w))).
Proof.
  split.
  - intros self args w h.
    destruct (is_null (context self)) eqn:Hctx;
      [unfold object_call; rewrite Hctx; cbn; discriminate|].
    destruct (args_supported args) eqn:Hargs;
      [|unfold object_call; rewrite Hctx, Hargs; cbn; discriminate].
    rewrite (object_call_calls self args w Hctx Hargs). cbv zeta.
    rewrite (object_call_steps self args w Hctx Hargs).
    cbn [bind result after]. intros H.
    apply quickjs_to_python_handle in H. destruct H as [-> Htag].
    cbn [context object].
    split; [reflexivity|]. split; [apply Z.eqb_neq; exact Hctx|].
    split; [exact Htag|].
    eexists. rewrite in_app_iff. right; left; reflexivity.
  - intros self args w h. unfold context_eval.
    destruct (PyArg_ParseTuple_s args) as [code | [exc msg]] eqn:Hparse;
      [|cbn; discriminate].
    cbn [bind result after]. intros H.
    apply quickjs_to_python_handle in H. destruct H as [-> Htag].
    cbn [context object].
    split; [reflexivity|]. split; [exact Htag|].
    exists code. split.
    + unfold PyArg_ParseTuple_s in Hparse.
      destruct args as [|[n|b|d| |s|o|t] [|]]; try discriminate Hparse.
      destruct (has_nul s); [discriminate Hparse|].
      injection Hparse as ->; reflexivity.
    + rewrite calls_bind, in_app_iff. left; left; reflexivity.
Qed.


(** ** Evaluation *)



(** X10.  The NULL protocol of the host.  When the converter, object_call
    or context_eval returns NULL, an error is pending.  When no error was
    pending before, the converter and context_eval leave none pending when
    they return a value. *)
Theorem null_result_means_error_pending (w : World E) :
  (forall (c : ptr) (value : JSValue),
      result (quickjs_to_python c value w) = None ->
      py_err (after (quickjs_to_python c value w)) <> None)
  /\ (forall (self : ObjectData) (args : list PyObject),
      result (object_call self args w) = None ->
      py_err (after (object_call self args w)) <> None)
  /\ (forall (self : ContextData) (args : list PyObject),
      result (context_eval self args w) = None ->
      py_err (after (context_eval self args w)) <> None)
  /\ (py_err w = None ->
      (forall (c : ptr) (value : JSValue),
          result (quickjs_to_python c value w) <> None ->
          py_err (after (quickjs_to_python c value w)) = None)
      /\ (forall (self : ContextData) (args : list PyObject),
          result (context_eval self args w) <> None ->
          py_err (after (context_eval self args w)) = None)).
Proof.
  assert (Hq : forall (c : ptr) (value : JSValue) (w0 : World E),
             result (quickjs_to_python c value w0) = None ->
             py_err (after (quickjs_to_python c value w0)) <> None).
  { intros c [uv []] w0; cbn; intros H; try discriminate.
    case_utf8; discriminate. }
  split; [intros; apply Hq; assumption|]. split; [|split].
  - intros self args.
    destruct (is_null (context self)) eqn:Hctx;
      [unfold object_call; rewrite Hctx; cbn; discriminate|].
    destruct (args_supported args) eqn:Hargs;
      [|unfold object_call; rewrite Hctx, Hargs; cbn; discriminate].
    rewrite (object_call_steps self args w Hctx Hargs).
    cbn [bind result after]. apply Hq.
  - intros self args. unfold context_eval.
    destruct (PyArg_ParseTuple_s args) as [code | [exc msg]];
      [|cbn; discriminate].
    cbn [bind result after]. apply Hq.
  - intros Hnone; split.
    + intros c value H.
      rewrite quickjs_to_python_keeps_error by exact H. exact Hnone.
    + intros self args. unfold context_eval.
      destruct (PyArg_ParseTuple_s args) as [code | [exc msg]];
        [|cbn; congruence].
      cbn [bind result after]. intros H.
      rewrite quickjs_to_python_keeps_error by exact H. exact Hnone.
Qed.

(** X16.  An evaluation accounts for every value it acquires.  On every
    path of context_eval (argument error, value, handle, JS exception,
    unknown tag) the values released, followed by the value a returned handle
    retains, are the values the engine handed over, in the reverse order of
    their acquisition: nothing is released twice and nothing is left
    behind. *)
Theorem evaluation_consumes_what_it_acquires (self : ContextData)
    (args : list PyObject) (w : World E) :
  let r := context_eval self args w in
  released (calls r) ++ retained (result r) = rev (acquired (calls r)).
Proof.
  cbv zeta. unfold context_eval.
  destruct (PyArg_ParseTuple_s args) as [code | [exc msg]]; [|reflexivity].
  cbn [bind result after calls JS_Eval ask].
  set (answer := eng_Eval (ctx self) code (strlen code) "<input>"
                   JS_EVAL_TYPE_GLOBAL (engine w)).
  destruct (fst answer) as [uv t] eqn:Hv.
  destruct t; cbn; try reflexivity.
  case_utf8; reflexivity.
Qed.

(** ** C strings *)

Lemma cstrings_taken_app (a b : list Event) :
  cstrings_taken (a ++ b) = cstrings_taken a ++ cstrings_taken b.
Proof.
  induction a as [|ev a IH]; cbn; [reflexivity|].
  destruct ev; cbn; rewrite IH; reflexivity.
Qed.

Lemma cstrings_freed_app (a b : list Event) :
  cstrings_freed (a ++ b) = cstrings_freed a ++ cstrings_freed b.
Proof.
  induction a as [|ev a IH]; cbn; [reflexivity|].
  destruct ev; cbn; rewrite IH; reflexivity.
Qed.

Lemma quickjs_to_python_cstrings (c : ptr) (value : JSValue) (w : World E) :
  cstrings_freed (calls (quickjs_to_python c value w)) =
  cstrings_taken (calls (quickjs_to_python c value w)).
Proof. destruct value as [uv []]; reflexivity. Qed.

Lemma fill_jsargs_cstrings (c : ptr) (args : list PyObject) (w : World E) :
  cstrings_freed (calls (fill_jsargs c args w)) = []
  /\ cstrings_taken (calls (fill_jsargs c args w)) = [].
Proof.
  revert w; induction args as [|item rest IH]; intros w; [cbn; auto|].
  cbn [fill_jsargs]. rewrite !calls_bind.
  cbn [bind result after ret calls]. rewrite app_nil_r.
  rewrite cstrings_freed_app, cstrings_taken_app.
  destruct (IH (after (fill_slot c item w))) as [-> ->].
  rewrite !app_nil_r. unfold fill_slot.
  destruct item as [n|b|d| |s|o|t];
    cbn [PyLong_Check PyUnicode_Check PyLong_AsLong]; try (cbn; auto; fail).
  destruct ((LONG_MIN <=? n) && (n <=? LONG_MAX)); cbn; auto.
Qed.

Lemma frees_cstrings (c : ptr) (vs : list JSValue) :
  cstrings_freed (map (EvFreeValue c) vs) = []
  /\ cstrings_taken (map (EvFreeValue c) vs) = [].
Proof. induction vs; cbn; auto. Qed.

(** X13.  Every C string the module takes from the engine is given back:
    in the converter, in object_call and in context_eval the strings passed
    to JS_FreeCString are the strings JS_ToCString answered with, each once
    and in the same order, on every path. *)
Theorem c_strings_are_freed_once (w : World E) :
  (forall (c : ptr) (value : JSValue),
      cstrings_freed (calls (quickjs_to_python c value w)) =
      cstrings_taken (calls (quickjs_to_python c value w)))
  /\ (forall (self : ObjectData) (args : list PyObject),
      cstrings_freed (calls (object_call self args w)) =
      cstrings_taken (calls (object_call self args w)))
  /\ (forall (self : ContextData) (args : list PyObject),
      cstrings_freed (calls (context_eval self args w)) =
      cstrings_taken (calls (context_eval self args w))).
Proof.
  split; [intros; apply quickjs_to_python_cstrings|]. split.
  - intros self args.
    destruct (is_null (context self)) eqn:Hctx;
      [unfold object_call; rewrite Hctx; reflexivity|].
    destruct (args_supported args) eqn:Hargs;
      [|unfold object_call; rewrite Hctx, Hargs; reflexivity].
    rewrite (object_call_calls self args w Hctx Hargs). cbv zeta.
    rewrite !cstrings_freed_app, !cstrings_taken_app.
    destruct (fill_jsargs_cstrings (context self) args w) as [-> ->].
    destruct (frees_cstrings (context self)
                (result (fill_jsargs (context self) args w))) as [-> ->].
    rewrite quickjs_to_python_cstrings. reflexivity.
  - intros self args. unfold context_eval.
    destruct (PyArg_ParseTuple_s args) as [code | [exc msg]]; [|reflexivity].
    rewrite calls_bind, cstrings_freed_app, cstrings_taken_app.
    rewrite quickjs_to_python_cstrings. reflexivity.
Qed.

(** ** Sessions *)

Lemma on_context_is_no_session_event (c : ptr) (evs : list Event) :
  forallb (on_context c) evs = true -> session_events evs = [].
Proof.
  induction evs as [|ev evs IH]; cbn; [reflexivity|].
  intros H; apply andb_true_iff in H; destruct H as [Hev Hrest].
  destruct ev; cbn in *; try discriminate Hev; apply IH, Hrest.
Qed.

Lemma uses_make_no_session_event (self : ContextData) (xs : list Use)
    (w : World E) :
  session_events (calls (uses self xs w)) = [].
Proof.
  revert w; induction xs as [|x rest IH]; intros w; [reflexivity|].
  cbn [uses]. rewrite calls_bind. unfold session_events.
  rewrite filter_app. fold (session_events (calls (use self x w))).
  fold (session_events
          (calls (uses self rest (after (use self x w))))).
  rewrite IH, app_nil_r.
  destruct x as [args | handle args]; cbn [use].
  - apply (on_context_is_no_session_event (ctx self)),
      context_eval_on_context.
  - apply (on_context_is_no_session_event (context handle)),
      object_call_on_context.
Qed.

(** X12.  One runtime and one context per session, made and released in
    matching order.  Over the whole life of a session (construction, any
    uses, destruction) the engine is asked for one runtime, then for one
    context on that runtime, and at the end the context it answered with is
    released and then the runtime it answered with; no other runtime or
    context is made or released in between.  When the host's allocation
    fails, nothing is done at all. *)
Theorem session_life_is_balanced (xs : list Use) (w : World E) :
  (forall mem : ContextData,
      let rt := fst (eng_NewRuntime (engine w)) in
      let c := fst (eng_NewContext rt (snd (eng_NewRuntime (engine w)))) in
      session_events (calls (session_life (Some mem) xs w)) =
        [EvNewRuntime rt; EvNewContext rt c; EvFreeContext c;
         EvFreeRuntime rt])
  /\ session_life None xs w = mkRun tt w [].
Proof.
  split; [|destruct w; reflexivity].
  intros mem. cbv zeta. unfold session_life.
  rewrite calls_bind. cbn [context_new bind result after calls ret].
  unfold used_then_destroyed. rewrite calls_bind.
  unfold session_events. rewrite !filter_app.
  match goal with
  | |- context [filter is_session_event (calls (uses ?s ?l ?w0))] =>
      fold (session_events (calls (uses s l w0)));
      rewrite (uses_make_no_session_event s l w0)
  end.
  reflexivity.
Qed.

End Further.

(** * Module initialisation *)

Section Initialisation.

Context {H : Type} {host : Host H}.

(** X14.  When PyInit__quickjs returns a module, both types were made
    ready, the module was created under the name "quickjs" with the one
    function "test", the exception "_quickjs.JSException" was created and
    stored in the static variable, and the module was asked to take
    "Context", "Object" and "JSException" under these names, in this order:
    seven host calls and no others.  The answers of the three additions are
    not looked at: the module is returned whatever they are. *)
Theorem init_exports_three_names (h : H) (var : ptr) :
  let r := PyInit__quickjs h var in
  module r <> NULL ->
  exists r1 r2 e a1 a2 a3,
    0 <= r1 /\ 0 <= r2 /\ e <> NULL
    /\ JSException_var r = e
    /\ host_calls r =
         [HcTypeReady TypeContext r1;
          HcTypeReady TypeObject r2;
          HcModuleCreate "quickjs" ["test"%string] (module r);
          HcNewException "_quickjs.JSException" e;
          HcAddObject (module r) "Context" (MvType TypeContext) a1;
          HcAddObject (module r) "Object" (MvType TypeObject) a2;
          HcAddObject (module r) "JSException" (MvObject e) a3].
Proof.
  cbv zeta. unfold PyInit__quickjs.
  destruct (fst (host_PyType_Ready TypeContext h) <? 0) eqn:H1;
    [cbn; congruence|].
  destruct (fst (host_PyType_Ready TypeObject
                   (snd (host_PyType_Ready TypeContext h))) <? 0) eqn:H2;
    [cbn; congruence|].
  cbv zeta.
  match goal with
  | |- context [is_null (fst ?created)] =>
      destruct (is_null (fst created)) eqn:H3; [cbn; congruence|]
  end.
  match goal with
  | |- context [is_null (fst (host_PyErr_NewException ?n ?h0))] =>
      destruct (is_null (fst (host_PyErr_NewException n h0))) eqn:H4;
        [cbn; congruence|]
  end.
  intros _. cbn [module JSException_var host_calls].
  apply Z.ltb_ge in H1, H2. apply Z.eqb_neq in H4.
  eexists _, _, _, _, _, _.
  split; [exact H1|]. split; [exact H2|]. split; [exact H4|].
  split; reflexivity.
Qed.

(** X15.  When PyInit__quickjs returns NULL it has stopped at the first host
    call that failed, and nothing was added to any module.  If that call was
    the creation of the exception, the module had already been created (it
    is not returned) and the static JSException holds NULL; on the earlier
    failures the static variable is left as it was. *)
Theorem init_stops_at_the_first_failure (h : H) (var : ptr) :
  let r := PyInit__quickjs h var in
  module r = NULL ->
  (exists r1,
      r1 < 0 /\ JSException_var r = var
      /\ host_calls r = [HcTypeReady TypeContext r1])
  \/ (exists r1 r2,
        0 <= r1 /\ r2 < 0 /\ JSException_var r = var
        /\ host_calls r =
             [HcTypeReady TypeContext r1; HcTypeReady TypeObject r2])
  \/ (exists r1 r2,
        0 <= r1 /\ 0 <= r2 /\ JSException_var r = var
        /\ host_calls r =
             [HcTypeReady TypeContext r1; HcTypeReady TypeObject r2;
              HcModuleCreate "quickjs" ["test"%string] NULL])
  \/ (exists r1 r2 m,
        0 <= r1 /\ 0 <= r2 /\ m <> NULL /\ JSException_var r = NULL
        /\ host_calls r =
             [HcTypeReady TypeContext r1; HcTypeReady TypeObject r2;
              HcModuleCreate "quickjs" ["test"%string] m;
              HcNewException "_quickjs.JSException" NULL]).
Proof.
  cbv zeta. unfold PyInit__quickjs.
  destruct (fst (host_PyType_Ready TypeContext h) <? 0) eqn:H1.
  { intros _. left. apply Z.ltb_lt in H1. eexists; repeat split; eauto. }
  destruct (fst (host_PyType_Ready TypeObject
                   (snd (host_PyType_Ready TypeContext h))) <? 0) eqn:H2.
  { intros _. right; left. apply Z.ltb_ge in H1. apply Z.ltb_lt in H2.
    eexists _, _. split; [exact H1|]. split; [exact H2|].
    split; reflexivity. }
  cbv zeta. apply Z.ltb_ge in H1, H2.
  match goal with
  | |- context [is_null (fst ?created)] =>
      destruct (is_null (fst created)) eqn:H3
  end.
  { intros _. right; right; left. apply Z.eqb_eq in H3.
    eexists _, _. split; [exact H1|]. split; [exact H2|].
    split; [reflexivity|]. cbn [host_calls]. rewrite H3. reflexivity. }
  match goal with
  | |- context [is_null (fst (host_PyErr_NewException ?n ?h0))] =>
      destruct (is_null (fst (host_PyErr_NewException n h0))) eqn:H4
  end.
  { intros _. right; right; right.
    apply Z.eqb_neq in H3. apply Z.eqb_eq in H4.
    eexists _, _, _. split; [exact H1|]. split; [exact H2|].
    split; [exact H3|]. cbn [JSException_var host_calls].
    rewrite H4. split; reflexivity. }
  cbn [module]. intros Hm. apply Z.eqb_neq in H3. contradiction.
Qed.

End Initialisation.

(** * The further properties on the scripted engine and host *)

Lemma int_argument_round_trip_witness :
  INT32_MIN <= -7 <= INT32_MAX
  /\ result (fill_slot 1 (PyLong (-7)) (script [] 1)) =
       mkJSValue (-7) JS_TAG_INT
  /\ calls (fill_slot 1 (PyLong (-7)) (script [] 1)) = []
  /\ after (fill_slot 1 (PyLong (-7)) (script [] 1)) = script [] 1
  /\ result (quickjs_to_python 1
               (result (fill_slot 1 (PyLong (-7)) (script [] 1)))
               (script [] 1)) = Some (PyLong (-7)).
Proof.
  assert (Hn : INT32_MIN <= -7 <= INT32_MAX)
    by (unfold INT32_MIN, INT32_MAX; lia).
  split; [exact Hn|].
  exact (int_argument_round_trip 1 1 (-7) (script [] 1) (script [] 1) Hn).
Defined.

Lemma int_argument_wraps_to_int32_witness :
  LONG_MIN <= 2 ^ 31 <= LONG_MAX
  /\ (2 ^ 31 < INT32_MIN \/ INT32_MAX < 2 ^ 31)
  /\ exists k,
       result (fill_slot 1 (PyLong (2 ^ 31)) (script [] 1)) =
         mkJSValue k JS_TAG_INT
       /\ result (quickjs_to_python 1
                    (result (fill_slot 1 (PyLong (2 ^ 31)) (script [] 1)))
                    (script [] 1)) = Some (PyLong k)
       /\ after (fill_slot 1 (PyLong (2 ^ 31)) (script [] 1)) = script [] 1
       /\ calls (fill_slot 1 (PyLong (2 ^ 31)) (script [] 1)) = []
       /\ INT32_MIN <= k <= INT32_MAX
       /\ (k - 2 ^ 31) mod 2 ^ 32 = 0
       /\ k <> 2 ^ 31.
Proof.
  assert (Hlong : LONG_MIN <= 2 ^ 31 <= LONG_MAX)
    by (unfold LONG_MIN, LONG_MAX; lia).
  assert (Hout : 2 ^ 31 < INT32_MIN \/ INT32_MAX < 2 ^ 31)
    by (right; unfold INT32_MAX; lia).
  split; [exact Hlong|]. split; [exact Hout|].
  exact (int_argument_wraps_to_int32 1 1 (2 ^ 31) (script [] 1) (script [] 1)
           Hlong Hout).
Defined.

Lemma overflowing_int_is_passed_as_minus_one_witness :
  let args := [PyLong 3; PyLong (2 ^ 63)] in
  let r := object_call bound_handle args (script [] 1) in
  context bound_handle <> NULL
  /\ args_supported args = true
  /\ str_items args = []
  /\ In (PyLong (2 ^ 63)) args
  /\ (2 ^ 63 < LONG_MIN \/ LONG_MAX < 2 ^ 63)
  /\ host_frees (calls r) = []
  /\ (exists argv answer,
        In (EvCall 1 (mkJSValue 7 JS_TAG_OBJECT) JS_NULL 1 argv answer)
           (calls r)
        /\ In (JS_MKVAL JS_TAG_INT (-1)) argv)
  /\ (result r <> None -> py_err (after r) = Some overflow_error).
Proof.
  assert (Hctx : context bound_handle <> NULL) by discriminate.
  assert (Hin : In (PyLong (2 ^ 63)) [PyLong 3; PyLong (2 ^ 63)])
    by (right; left; reflexivity).
  assert (Hout : 2 ^ 63 < LONG_MIN \/ LONG_MAX < 2 ^ 63)
    by (right; unfold LONG_MAX; lia).
  split; [exact Hctx|]. split; [reflexivity|]. split; [reflexivity|].
  split; [exact Hin|]. split; [exact Hout|].
  exact (overflowing_int_is_passed_as_minus_one bound_handle
           [PyLong 3; PyLong (2 ^ 63)] (2 ^ 63) (script [] 1)
           Hctx eq_refl eq_refl Hin Hout).
Defined.


Lemma function_is_called_at_most_once_witness :
  (is_null (context bound_handle) || negb (args_supported [PyFloat 0])
   = true
   /\ function_calls
        (calls (object_call bound_handle [PyFloat 0] (script [] 1))) = O)
  /\ (is_null (context bound_handle) = false
      /\ args_supported [PyLong 1; PyBool true; PyLong 2] = true
      /\ str_items [PyLong 1; PyBool true; PyLong 2] = []
      /\ function_calls
           (calls (object_call bound_handle [PyLong 1; PyBool true; PyLong 2]
                     (script [] 1))) = 1%nat).
Proof.
  split.
  - split; [reflexivity|].
    exact (proj1 (function_is_called_at_most_once bound_handle [PyFloat 0]
                    (script [] 1)) eq_refl).
  - split; [reflexivity|]. split; [reflexivity|]. split; [reflexivity|].
    exact (proj2 (function_is_called_at_most_once bound_handle
                    [PyLong 1; PyBool true; PyLong 2] (script [] 1))
             eq_refl eq_refl eq_refl).
Defined.

Lemma object_call_argc_witness :
  let argv := [JS_MKVAL JS_TAG_INT 1; JS_MKVAL JS_TAG_INT 2;
               JS_MKVAL JS_TAG_INT 3] in
  In (EvCall 1 (mkJSValue 7 JS_TAG_OBJECT) JS_NULL 1 argv
        (mkJSValue 0 JS_TAG_UNDEFINED))
     (calls (object_call bound_handle [PyLong 1; PyLong 2; PyLong 3]
               (script [] 1)))
  /\ 1 = 1 /\ JS_NULL = JS_NULL /\ List.length argv = 3%nat.
Proof.
  assert (Hin :
    In (EvCall 1 (mkJSValue 7 JS_TAG_OBJECT) JS_NULL 1
          [JS_MKVAL JS_TAG_INT 1; JS_MKVAL JS_TAG_INT 2;
           JS_MKVAL JS_TAG_INT 3] (mkJSValue 0 JS_TAG_UNDEFINED))
       (calls (object_call bound_handle [PyLong 1; PyLong 2; PyLong 3]
                 (script [] 1)))) by (left; reflexivity).
  split; [exact Hin|].
  exact (object_call_argc bound_handle [PyLong 1; PyLong 2; PyLong 3]
           (script [] 1) _ _ _ _ _ _ Hin).
Defined.

Lemma returned_handle_keeps_the_context_witness :
  let func := mkJSValue 9 JS_TAG_OBJECT in
  let h := {| context := 1; object := func |} in
  let session := {| runtime := 1; ctx := 2 |} in
  let h' := {| context := 2; object := func |} in
  (result (object_call bound_handle [] (script [func] 1)) =
     Some (PyObjectData h)
   /\ context h = context bound_handle
   /\ context h <> NULL
   /\ JS_VALUE_GET_TAG (object h) = JS_TAG_OBJECT
   /\ exists argv,
        In (EvCall 1 (mkJSValue 7 JS_TAG_OBJECT) JS_NULL 1 argv (object h))
           (calls (object_call bound_handle [PyLong 1] (script [func] 1))))
  /\ (result (context_eval session [PyUnicode "f"] (script [func] 1)) =
       Some (PyObjectData h')
      /\ context h' = ctx session
      /\ JS_VALUE_GET_TAG (object h') = JS_TAG_OBJECT
      /\ exists code,
           [PyUnicode "f"] = [PyUnicode code]
           /\ In (EvEval 2 code (strlen code) "<input>" JS_EVAL_TYPE_GLOBAL
                    (object h'))
                 (calls (context_eval session [PyUnicode "f"]
                           (script [func] 1)))).
Proof.
  destruct (@returned_handle_keeps_the_context Script scripted_engine)
    as [Hcall Heval].
  cbv zeta; split.
  - split; [reflexivity|].
    exact (Hcall bound_handle [PyLong 1]
             (script [mkJSValue 9 JS_TAG_OBJECT] 1) _ eq_refl).
  - split; [reflexivity|].
    exact (Heval {| runtime := 1; ctx := 2 |} [PyUnicode "f"]
             (script [mkJSValue 9 JS_TAG_OBJECT] 1) _ eq_refl).
Defined.



Lemma null_result_means_error_pending_witness :
  let w := script [marker] 1 in
  let session := {| runtime := 1; ctx := 2 |} in
  py_err (after (quickjs_to_python 1 marker w)) <> None
  /\ py_err (after (object_call bound_handle [] w)) <> None
  /\ py_err (after (context_eval session [PyUnicode "x"] w)) <> None
  /\ py_err w = None
  /\ py_err (after (quickjs_to_python 1 (mkJSValue 5 JS_TAG_INT) w)) = None
  /\ py_err (after (context_eval session [PyUnicode "x"] (script [] 1)))
     = None.
Proof.
  cbv zeta.
  destruct (null_result_means_error_pending (script [marker] 1))
    as [Hq [Hcall [Heval Hback]]].
  destruct (null_result_means_error_pending (script [] 1))
    as [_ [_ [_ Hback']]].
  split; [apply Hq; reflexivity|].
  split; [apply Hcall; reflexivity|].
  split; [apply Heval; reflexivity|].
  split; [reflexivity|].
  split.
  - apply (proj1 (Hback eq_refl)); discriminate.
  - apply (proj2 (Hback' eq_refl)); discriminate.
Defined.

(** A host on which everything succeeds but the additions to the module,
    and one on which the exception cannot be created. *)
Lemma init_exports_three_names_witness :
  let h := mkHostScript 0 0 64 65 (-1) in
  module (PyInit__quickjs h NULL) <> NULL
  /\ exists r1 r2 e a1 a2 a3,
       0 <= r1 /\ 0 <= r2 /\ e <> NULL
       /\ JSException_var (PyInit__quickjs h NULL) = e
       /\ host_calls (PyInit__quickjs h NULL) =
            [HcTypeReady TypeContext r1;
             HcTypeReady TypeObject r2;
             HcModuleCreate "quickjs" ["test"%string]
               (module (PyInit__quickjs h NULL));
             HcNewException "_quickjs.JSException" e;
             HcAddObject (module (PyInit__quickjs h NULL)) "Context"
               (MvType TypeContext) a1;
             HcAddObject (module (PyInit__quickjs h NULL)) "Object"
               (MvType TypeObject) a2;
             HcAddObject (module (PyInit__quickjs h NULL)) "JSException"
               (MvObject e) a3].
Proof.
  assert (Hm : module (PyInit__quickjs (mkHostScript 0 0 64 65 (-1)) NULL)
               <> NULL) by discriminate.
  split; [exact Hm|].
  exact (init_exports_three_names (mkHostScript 0 0 64 65 (-1)) NULL Hm).
Defined.

Lemma init_stops_at_the_first_failure_witness :
  let r := PyInit__quickjs (mkHostScript 0 0 64 NULL 0) 5 in
  module r = NULL
  /\ ((exists r1,
         r1 < 0 /\ JSException_var r = 5
         /\ host_calls r = [HcTypeReady TypeContext r1])
      \/ (exists r1 r2,
            0 <= r1 /\ r2 < 0 /\ JSException_var r = 5
            /\ host_calls r =
                 [HcTypeReady TypeContext r1; HcTypeReady TypeObject r2])
      \/ (exists r1 r2,
            0 <= r1 /\ 0 <= r2 /\ JSException_var r = 5
            /\ host_calls r =
                 [HcTypeReady TypeContext r1; HcTypeReady TypeObject r2;
                  HcModuleCreate "quickjs" ["test"%string] NULL])
      \/ (exists r1 r2 m,
            0 <= r1 /\ 0 <= r2 /\ m <> NULL /\ JSException_var r = NULL
            /\ host_calls r =
                 [HcTypeReady TypeContext r1; HcTypeReady TypeObject r2;
                  HcModuleCreate "quickjs" ["test"%string] m;
                  HcNewException "_quickjs.JSException" NULL])).
Proof.
  split; [reflexivity|].
  exact (init_stops_at_the_first_failure (mkHostScript 0 0 64 NULL 0) 5
           eq_refl).
Defined.
